(** * Kaetram server core: a shallow embedding

    The development follows the TypeScript sources of the server package:

    - [TeamWar]    minigames/impl/teamwar.ts
    - [Doors]      game/entity/character/player/doors.ts
    - [MobHandler] game/entity/character/mob/handler.ts
    - [Player]     game/entity/character/player/player.ts (class Player)
    - [Skills]     the Skills aggregate that follows Player in the same file
    - [Profession] professions/impl/profession.js (the older JavaScript server)

    Conventions.  JavaScript numbers that hold counters, levels, coordinates
    and epoch milliseconds are integers and are modelled by [Z].  Objects
    that are compared by reference (players) are modelled by a key type with
    decidable equality.  Calls that leave the process (world.push,
    regions.sendRegion, database saves, registered callbacks) are recorded,
    in order, in an event log carried by the state.  Sources of
    non-determinism (Utils.randomInt, Date.now) are explicit arguments. *)

From Stdlib Require Import ZArith Lia.
From stdpp Require Import base list gmap strings pretty.

Local Open Scope Z_scope.

(** ** TeamWar minigame (teamwar.ts) *)

Module TeamWar.

(** type Team = 'red' | 'blue' | 'lobby' *)
Inductive Team : Type := Red | Blue | Lobby.

Section Model.
(** Player objects, compared by reference in the source. *)
Context {Player : Type} `{Countable Player}.

(** The fields of the class that the operations read or write.
    [minigame] holds the [player.minigame] field of every player object
    written by [add] ([None] is the source's null); [pushed] lists the
    countdown packets handed to world.push as (recipient, countdown). *)
Record State : Type := mkState {
  lobby : list Player;
  redTeam : list Player;
  blueTeam : list Player;
  started : bool;
  countdown : Z;
  updateTick : Z;
  lastSync : Z;
  syncThreshold : Z;
  minigame : gmap Player (option Team);
  pushed : list (Player * Z)
}.

(** constructor(world), with [now] the value of Date.now(). *)
Definition new (now : Z) : State :=
  {| lobby := []; redTeam := []; blueTeam := [];
     started := false;
     countdown := 120; updateTick := 1000;
     lastSync := now; syncThreshold := 10000;
     minigame := ∅; pushed := [] |}.

(** Array.prototype.includes on an array of object references. *)
Definition includes (l : list Player) (p : Player) : bool :=
  bool_decide (p ∈ l).

(** Array.prototype.indexOf: the first index holding [p], or -1. *)
Fixpoint indexOf_from (i : Z) (l : list Player) (p : Player) : Z :=
  match l with
  | [] => -1
  | q :: l' => if decide (q = p) then i else indexOf_from (i + 1) l' p
  end.

Definition indexOf (l : list Player) (p : Player) : Z := indexOf_from 0 l p.

(** count() *)
Definition count (s : State) : Z := Z.of_nat (length (lobby s)).

(** getTeam(player): red, then blue, then lobby; null otherwise. *)
Definition getTeam (s : State) (p : Player) : option Team :=
  if includes (redTeam s) p then Some Red
  else if includes (blueTeam s) p then Some Blue
  else if includes (lobby s) p then Some Lobby
  else None.

(** getState(player): the base class snapshot extended with the team, or
    null when the player has no team.  Only the team is kept here. *)
Definition getState (s : State) (p : Player) : option Team := getTeam s p.

(** add(player) *)
Definition add (p : Player) (s : State) : State :=
  if includes (lobby s) p then s
  else
    let s1 :=
      {| lobby := lobby s ++ [p]; redTeam := redTeam s; blueTeam := blueTeam s;
         started := started s; countdown := countdown s;
         updateTick := updateTick s; lastSync := lastSync s;
         syncThreshold := syncThreshold s;
         minigame := minigame s; pushed := pushed s |} in
    {| lobby := lobby s1; redTeam := redTeam s1; blueTeam := blueTeam s1;
       started := started s1; countdown := countdown s1;
       updateTick := updateTick s1; lastSync := lastSync s1;
       syncThreshold := syncThreshold s1;
       minigame := <[p := getState s1 p]> (minigame s1);
       pushed := pushed s1 |}.

(** remove(player): lobby.splice(index, 1) at the first occurrence. *)
Definition remove (p : Player) (s : State) : State :=
  let index := indexOf (lobby s) p in
  if index <? 0 then s
  else
    {| lobby := delete (Z.to_nat index) (lobby s);
       redTeam := redTeam s; blueTeam := blueTeam s;
       started := started s; countdown := countdown s;
       updateTick := updateTick s; lastSync := lastSync s;
       syncThreshold := syncThreshold s;
       minigame := minigame s; pushed := pushed s |}.

(** Math.ceil(n / 2) for an array length n. *)
Definition ceil_half (n : nat) : nat := ((n + 1) / 2)%nat.

(** tmp.splice(0, half): the removed prefix, and what stays in tmp. *)
Definition splice0 (half : nat) (tmp : list Player) : list Player * list Player :=
  (take half tmp, drop half tmp).

(** buildTeams(), with [random] the value of Utils.randomInt(0, 1).
    [tmp] is a copy of the lobby: the lobby array itself is not touched. *)
Definition buildTeams (random : Z) (s : State) : State :=
  let tmp := lobby s in
  let half := ceil_half (length tmp) in
  let '(front, tmp') := splice0 half tmp in
  let '(newRed, newBlue) :=
    if random =? 1 then (front, tmp') else (tmp', front) in
  {| lobby := lobby s; redTeam := newRed; blueTeam := newBlue;
     started := started s; countdown := countdown s;
     updateTick := updateTick s; lastSync := lastSync s;
     syncThreshold := syncThreshold s;
     minigame := minigame s; pushed := pushed s |}.

(** sendCountdown(player) *)
Definition sendCountdown (p : Player) (s : State) : State :=
  {| lobby := lobby s; redTeam := redTeam s; blueTeam := blueTeam s;
     started := started s; countdown := countdown s;
     updateTick := updateTick s; lastSync := lastSync s;
     syncThreshold := syncThreshold s;
     minigame := minigame s;
     pushed := pushed s ++ [(p, countdown s)] |}.

(** synchronize() *)
Definition synchronize (s : State) : State :=
  if started s then s
  else fold_left (fun acc p => sendCountdown p acc) (lobby s) s.

Definition set_started (b : bool) (s : State) : State :=
  {| lobby := lobby s; redTeam := redTeam s; blueTeam := blueTeam s;
     started := b; countdown := countdown s;
     updateTick := updateTick s; lastSync := lastSync s;
     syncThreshold := syncThreshold s;
     minigame := minigame s; pushed := pushed s |}.

Definition set_countdown (c : Z) (s : State) : State :=
  {| lobby := lobby s; redTeam := redTeam s; blueTeam := blueTeam s;
     started := started s; countdown := c;
     updateTick := updateTick s; lastSync := lastSync s;
     syncThreshold := syncThreshold s;
     minigame := minigame s; pushed := pushed s |}.

(** The body of the interval callback installed by load(), with [now] the
    value of Date.now() and [random] the draw used by buildTeams. *)
Definition tick (now random : Z) (s : State) : State :=
  if (count s <? 5) || (countdown s >? 0) then s
  else
    let s1 := buildTeams random s in
    let s2 :=
      if now - lastSync s1 >? syncThreshold s1 then synchronize s1 else s1 in
    set_started true s2.

(** What can happen to a TeamWar object: its methods, the interval
    callback, and a write to the public [countdown] field (nothing in
    teamwar.ts itself changes the countdown). *)
Inductive Op : Type :=
| Add (p : Player)
| Remove (p : Player)
| Tick (now random : Z)
| BuildTeams (random : Z)
| SetCountdown (c : Z).

Definition step (s : State) (op : Op) : State :=
  match op with
  | Add p => add p s
  | Remove p => remove p s
  | Tick now random => tick now random s
  | BuildTeams random => buildTeams random s
  | SetCountdown c => set_countdown c s
  end.

Definition run (ops : list Op) (s : State) : State := fold_left step ops s.

(** The number of the three collections that hold [p]. *)
Definition memberships (s : State) (p : Player) : nat :=
  (Nat.b2n (includes (lobby s) p) + Nat.b2n (includes (redTeam s) p)
   + Nat.b2n (includes (blueTeam s) p))%nat.

(** A player is in at most one of lobby, redTeam and blueTeam. *)
Definition exclusive (s : State) : Prop :=
  ∀ p, (memberships s p <= 1)%nat.

(** What the operations do maintain: no player twice in the lobby, and no
    player twice in the two rosters taken together. *)
Definition rosters_ok (s : State) : Prop :=
  NoDup (lobby s) ∧ NoDup (redTeam s ++ blueTeam s).

End Model.

Arguments State Player {_ _} : assert.
Arguments Op : clear implicits.

(** *** The rest of the class *)

(** Whether an operation writes the countdown field. *)
Definition writesCountdown {Player : Type} (op : Op Player) : bool :=
  match op with
  | SetCountdown _ => true
  | _ => false
  end.

(** inLobby(player), on the player's coordinates. *)
Definition inLobby (x y : Z) : bool :=
  (x >? 0) && (x <? 10) && (y >? 10) && (y <? 0).

(** The upper bound getRandom(radius) hands to Utils.randomInt(0, _):
    [radius || 4], where a missing radius and the radius 0 are falsy. *)
Definition getRandomBound (radius : option Z) : Z :=
  match radius with
  | Some r => if r =? 0 then 4 else r
  | None => 4
  end.

(** A value Utils.randomInt(0, radius || 4) can return. *)
Definition inRandomRange (radius : option Z) (draw : Z) : Prop :=
  0 <= draw <= getRandomBound radius.

(** getRedTeamSpawn() and getBlueTeamSpawn(), with [dx] and [dy] the two
    values of getRandom(). *)
Definition getRedTeamSpawn (dx dy : Z) : Z * Z := (133 + dx, 471 + dy).

Definition getBlueTeamSpawn (dx dy : Z) : Z * Z := (163 + dx, 499 + dy).

(** *** Sample lobby *)

(** Five players joined a new TeamWar. *)
Definition sampleLobby : State nat :=
  run [Add 1%nat; Add 2%nat; Add 3%nat; Add 4%nat; Add 5%nat] (new 0).

End TeamWar.

(** ** Doors (doors.ts) *)

Module Doors.

(** type DoorStatus = 'open' | 'closed' | undefined; undefined is [None]. *)
Inductive DoorStatus : Type := Open | Closed.

Global Instance DoorStatus_eq_dec : EqDecision DoorStatus.
Proof. solve_decision. Defined.

(** interface IDs *)
Record IDs : Type := mkIDs {
  data : list Z;
  isColliding : bool
}.

(** interface Door.  Optional fields are options.  [closedIds] and
    [openIds] list the entries of the source's objects in enumeration order;
    a key is kept as the number parseInt reads from it. *)
Record Door : Type := mkDoor {
  id : Z;
  x : option Z;
  y : option Z;
  status : option DoorStatus;
  requirement : string;
  level : option Z;
  questId : option Z;
  achievementId : option Z;
  closedIds : list (Z * IDs);
  openIds : list (Z * IDs)
}.

(** interface DoorTiles (objectData is never written in doors.ts). *)
Record DoorTiles : Type := mkTiles {
  indexes : list Z;
  tilesData : list (list Z);
  collisions : list bool
}.

(** What doors.ts asks of a quest and of an achievement. *)
Record Quest : Type := mkQuest { hasDoorUnlocked : Door → bool }.
Record Achievement : Type := mkAchievement { isFinished : bool }.

(** The collaborators reached through [this.player], [this.world.map],
    [this.regions] and the configuration. *)
Record Env : Type := mkEnv {
  skipDatabase : bool;
  playerLevel : Z;
  getQuest : option Z → option Quest;
  getAchievement : option Z → option Achievement;
  coordToIndex : Z → Z → Z;
  getRegion : option Z → option Z → Z
}.

(** The Doors object: its collaborators and the values of [this.doors] in
    enumeration order. *)
Record Doors : Type := mkDoors {
  env : Env;
  doors : list Door
}.

(** getStatus(door).  The switch has no default: for any other requirement
    the function falls off its end and yields undefined. *)
Definition getStatus (d : Doors) (door : Door) : option DoorStatus :=
  match status door with
  | Some st => Some st
  | None =>
    if skipDatabase (env d) then Some Open
    else if String.eqb (requirement door) "quest" then
      match getQuest (env d) (questId door) with
      | Some quest => if hasDoorUnlocked quest door then Some Open else Some Closed
      | None => Some Closed
      end
    else if String.eqb (requirement door) "achievement" then
      match getAchievement (env d) (achievementId door) with
      | Some achievement => if isFinished achievement then Some Open else Some Closed
      | None => Some Closed
      end
    else if String.eqb (requirement door) "level" then
      match level door with
      | Some l => if playerLevel (env d) >=? l then Some Open else Some Closed
      | None => Some Closed (* a comparison with undefined is false *)
      end
    else None
  end.

(** doorState[status]: the tile set selected by the status; indexing with
    undefined yields undefined, over which _.each visits nothing. *)
Definition doorState (door : Door) (st : option DoorStatus) : list (Z * IDs) :=
  match st with
  | Some Open => openIds door
  | Some Closed => closedIds door
  | None => []
  end.

Definition emptyTiles : DoorTiles :=
  {| indexes := []; tilesData := []; collisions := [] |}.

(** One round of the _.each in getTiles: three pushes. *)
Definition pushTile (tiles : DoorTiles) (entry : Z * IDs) : DoorTiles :=
  {| indexes := indexes tiles ++ [entry.1];
     tilesData := tilesData tiles ++ [data entry.2];
     collisions := collisions tiles ++ [isColliding entry.2] |}.

(** getTiles(door) *)
Definition getTiles (d : Doors) (door : Door) : DoorTiles :=
  fold_left pushTile (doorState door (getStatus d door)) emptyTiles.

(** getAllTiles().  The callback computes the door's region and does
    nothing else: the lines that append the door's tiles are commented out
    in the source (under a TODO). *)
Definition getAllTiles (d : Doors) : DoorTiles :=
  fold_left
    (fun allTiles door =>
       let doorRegion := getRegion (env d) (x door) (y door) in
       allTiles)
    (doors d) emptyTiles.

(** Array.prototype.indexOf on numbers: the first index, or -1. *)
Fixpoint indexOf_from (i : Z) (l : list Z) (v : Z) : Z :=
  match l with
  | [] => -1
  | w :: l' => if w =? v then i else indexOf_from (i + 1) l' v
  end.

Definition indexOf (l : list Z) (v : Z) : Z := indexOf_from 0 l v.

(** hasCollision(x, y).  Reading collisions[index] past the end yields
    undefined, which is falsy. *)
Definition hasCollision (d : Doors) (px py : Z) : bool :=
  let tiles := getAllTiles d in
  let tileIndex := coordToIndex (env d) px py in
  let index := indexOf (indexes tiles) tileIndex in
  if index <? 0 then false
  else default false (collisions tiles !! Z.to_nat index).

(** getDoor(x, y) *)
Definition getDoor (d : Doors) (px py : Z) : option Door :=
  find (fun door => bool_decide (x door = Some px) && bool_decide (y door = Some py))
       (doors d).

(** isClosed(door) *)
Definition isClosed (d : Doors) (door : Door) : bool :=
  bool_decide (getStatus d door = Some Closed).

(** The collision flag that the tile set selected by the door's status
    stores for a map tile index, if the index is one of its keys. *)
Definition relevantCollision (d : Doors) (door : Door) (tileIndex : Z) : option bool :=
  let tiles := getTiles d door in
  let index := indexOf (indexes tiles) tileIndex in
  if index <? 0 then None else collisions tiles !! Z.to_nat index.

(** *** Sample doors *)

(** A map of 100 columns, a player of level 9 with no quests and no
    achievements, persistence enabled. *)
Definition sampleEnv : Env :=
  {| skipDatabase := false;
     playerLevel := 9;
     getQuest := fun _ => None;
     getAchievement := fun _ => None;
     coordToIndex := fun px py => py * 100 + px;
     getRegion := fun _ _ => 0 |}.

(** A door with the fixed status closed whose closed tile set has the one
    tile 1205, colliding. *)
Definition gate : Door :=
  {| id := 1; x := Some 5; y := Some 12; status := Some Closed;
     requirement := "none"; level := None; questId := None; achievementId := None;
     closedIds := [(1205, {| data := [7]; isColliding := true |})];
     openIds := [(1205, {| data := [8]; isColliding := false |})] |}.

(** A door without a fixed status whose requirement is not one of the three
    the switch knows. *)
Definition oddDoor : Door :=
  {| id := 2; x := Some 6; y := Some 12; status := None;
     requirement := "none"; level := None; questId := None; achievementId := None;
     closedIds := [(1206, {| data := [7]; isColliding := true |})];
     openIds := [(1206, {| data := [8]; isColliding := false |})] |}.

Definition sampleDoors : Doors := {| env := sampleEnv; doors := [gate; oddDoor] |}.

(** *** The door table *)

(** The object literal load() stores for a door of the data file. *)
Definition copyDoor (door : Door) : Door :=
  {| id := id door; x := x door; y := y door; status := status door;
     requirement := requirement door; level := level door;
     questId := questId door; achievementId := achievementId door;
     closedIds := closedIds door; openIds := openIds door |}.

(** load(): [this.doors[door.id] = { ... }] for every door of the data
    file, in order.  [this.doors] is a dictionary keyed by the door id. *)
Definition load (doorData : list Door) : gmap Z Door :=
  fold_left (fun table door => <[id door := copyDoor door]> table) doorData ∅.

(** isDoor(x, y, callback): the values the callback is called with, one
    call per door of the table. *)
Definition isDoor (d : Doors) (px py : Z) : list bool :=
  (fun door => bool_decide (x door = Some px) && bool_decide (y door = Some py))
    <$> doors d.

(** A door that asks for level 10, seen by the sample player of level 9. *)
Definition levelDoor : Door :=
  {| id := 3; x := Some 7; y := Some 12; status := None;
     requirement := "level"; level := Some 10; questId := None; achievementId := None;
     closedIds := [(1207, {| data := [7]; isColliding := true |});
                   (1307, {| data := [9]; isColliding := false |})];
     openIds := [(1207, {| data := [8]; isColliding := false |})] |}.

End Doors.

(** ** Mob behaviour handler (mob/handler.ts) *)

Module MobHandler.

(** The map queries used by the handler. *)
Record Map : Type := mkMap {
  isColliding : Z → Z → bool;
  isEmpty : Z → Z → bool;
  isDoor : Z → Z → bool;
  getPlateauLevel : Z → Z → Z
}.

(** The fields of the mob read by the handler; [combatStarted] is
    [mob.combat.started]. *)
Record Mob : Type := mkMob {
  x : Z;
  y : Z;
  spawnX : Z;
  spawnY : Z;
  roamDistance : Z;
  dead : bool;
  combatStarted : bool
}.

Record Handler : Type := mkHandler {
  map : Map;
  mob : Mob;
  plateauLevel : Z
}.

(** constructor(mob): the plateau level of the spawn tile is stored once. *)
Definition new (m : Map) (b : Mob) : Handler :=
  {| map := m; mob := b; plateauLevel := getPlateauLevel m (spawnX b) (spawnY b) |}.

(** Modelled from the spec: Utils.getDistance (the common utilities) is not
    among the sources; the spec calls its value the straight-line distance
    between the two points.  That value is a square root, so the model
    keeps its square. *)
Definition getDistanceSq (startX startY toX toY : Z) : Z :=
  (startX - toX) * (startX - toX) + (startY - toY) * (startY - toY).

(** [distance < roamDistance] for a distance given by its square. *)
Definition distance_lt (distanceSq r : Z) : bool :=
  (0 <? r) && (distanceSq <? r * r).

(** handleRoaming(), with [rx] and [ry] the two draws of
    Utils.randomInt(-roamDistance, roamDistance).  The result is the pair
    handed to mob.move, or [None] when the function returns before. *)
Definition handleRoaming (h : Handler) (rx ry : Z) : option (Z * Z) :=
  if dead (mob h) then None
  else
    let newX := spawnX (mob h) + rx in
    let newY := spawnY (mob h) + ry in
    let distance := getDistanceSq (spawnX (mob h)) (spawnY (mob h)) newX newY in
    if isColliding (map h) newX newY then None
    else if isEmpty (map h) newX newY then None
    else if isDoor (map h) newX newY then None
    else if distance_lt distance (roamDistance (mob h)) then None
    else if (newX =? x (mob h)) && (newY =? y (mob h)) then None
    else if combatStarted (mob h) then None
    else if negb (plateauLevel h =? getPlateauLevel (map h) newX newY) then None
    else Some (newX, newY).

(** The draws of Utils.randomInt(-roamDistance, roamDistance). *)
Definition inRoamRange (h : Handler) (r : Z) : Prop :=
  - roamDistance (mob h) <= r <= roamDistance (mob h).

(** handleHit(attacker): whether combat.begin(attacker) is reached. *)
Definition handleHit (h : Handler) : bool :=
  if dead (mob h) then false
  else if combatStarted (mob h) then false
  else true.

(** The conditions under which the spec accepts a candidate. *)
Definition specAccepts (h : Handler) (newX newY : Z) : bool :=
  negb (isColliding (map h) newX newY)
  && negb (isEmpty (map h) newX newY)
  && negb (isDoor (map h) newX newY)
  && (plateauLevel h =? getPlateauLevel (map h) newX newY)
  && negb ((newX =? x (mob h)) && (newY =? y (mob h)))
  && distance_lt (getDistanceSq (spawnX (mob h)) (spawnY (mob h)) newX newY)
                 (roamDistance (mob h)).

(** *** Sample mob *)

(** A map without obstacles, on one plateau. *)
Definition openMap : Map :=
  {| isColliding := fun _ _ => false;
     isEmpty := fun _ _ => false;
     isDoor := fun _ _ => false;
     getPlateauLevel := fun _ _ => 0 |}.

(** A living mob standing on its spawn point (100, 100), roaming distance 5. *)
Definition rat : Mob :=
  {| x := 100; y := 100; spawnX := 100; spawnY := 100;
     roamDistance := 5; dead := false; combatStarted := false |}.

End MobHandler.

(** ** Player (player.ts, class Player) *)

Module Player.

(** Modelled from the spec: the HitPoints and Mana classes (the points
    directory) are not among the sources.  A vital is a current value and a
    maximum; the spec keeps [current <= max] at every mutation, so raising
    the current value stops at the maximum. *)
Record Points : Type := mkPoints {
  points : Z;
  maxPoints : Z
}.

Definition setMaxPoints (m : Z) (v : Points) : Points :=
  {| points := points v; maxPoints := m |}.

Definition increment (amount : Z) (v : Points) : Points :=
  {| points := Z.min (points v + amount) (maxPoints v); maxPoints := maxPoints v |}.

(** What equipment.getWeapon() exposes to getHit. *)
Record Weapon : Type := mkWeapon {
  ability : Z;
  abilityLevel : Z
}.

(** Modules.Hits, as far as getHit names it. *)
Inductive HitType : Type := HitDamage | HitCritical | HitStun | HitExplosive.

(** new Hit(type, damage) *)
Record Hit : Type := mkHit {
  hitType : HitType;
  hitDamage : Z
}.

(** The result of serialize(withEquipment), as far as player.ts fills it:
    the fields the base class adds are left out, and the equipment is kept
    as the flag that asks for it. *)
Record PlayerData : Type := mkPlayerData {
  dataRights : Z;
  dataLevel : Z;
  dataHitPoints : Z;
  dataMaxHitPoints : Z;
  dataOrientation : Z;
  dataMovementSpeed : Z;
  dataEquipments : bool
}.

(** The packets built in player.ts, each with the payload it is given. *)
Inductive Packet : Type :=
| ExperienceCombat (inst : string) (lvl : Z)
    (amount experience : option Z) (nextExperience prevExperience : option Z)
| ExperienceSync (inst : string) (lvl : Z)
| PointsPacket (inst : string) (hp maxHp mp maxMp : Z)
| HealPacket (inst : string) (kind : string) (amount : Z)
| SyncPacket (d : PlayerData)
| NotificationPopup (title message colour : string)
| NotificationText (message : string) (colour : option string).

(** Calls that leave the player object, in the order they are made. *)
Inductive Event : Type :=
| PushPlayer (packet : Packet)
    (* world.push(PacketType.Player, { packet, player: this }) *)
| PushRegions (region : Z) (packet : Packet) (ignore : string)
    (* world.push(PacketType.Regions, { region, packet, ignore }) *)
| SendRegion
    (* regions.sendRegion(this) *)
| Save
    (* database.creator?.save(this) *)
| CheatScoreCallback
    (* the registered cheat score callback is called *)
| SkillsLoadCallback.
    (* the callback registered with Skills.onLoaded is called *)

(** The fields of the player touched by the methods below.  [hitPoints] and
    [mana] are the two vitals, [combatStarted] is [combat.started],
    [lastNotify] is unset until the first notification, and
    [cheatScoreCallback] tells whether onCheatScore registered a callback. *)
Record Player : Type := mkPlayer {
  instance : string;
  region : Z;
  rights : Z;
  orientation : Z;
  defaultMovementSpeed : Z;
  level : Z;
  experience : Z;
  nextExperience : option Z;
  prevExperience : option Z;
  hitPoints : Points;
  mana : Points;
  weapon : Weapon;
  cheatScore : Z;
  combatStarted : bool;
  lastNotify : option Z;
  ready : bool;
  isGuest : bool;
  cheatScoreCallback : bool;
  log : list Event
}.

(** Field writes. *)
Definition setLog (l : list Event) (p : Player) : Player :=
  {| instance := instance p; region := region p; rights := rights p;
     orientation := orientation p; defaultMovementSpeed := defaultMovementSpeed p;
     level := level p; experience := experience p;
     nextExperience := nextExperience p; prevExperience := prevExperience p;
     hitPoints := hitPoints p; mana := mana p; weapon := weapon p;
     cheatScore := cheatScore p; combatStarted := combatStarted p;
     lastNotify := lastNotify p; ready := ready p; isGuest := isGuest p;
     cheatScoreCallback := cheatScoreCallback p;
     log := l |}.

(** An outgoing call is appended to the log. *)
Definition emit (e : Event) (p : Player) : Player := setLog (log p ++ [e]) p.

Definition setProgress (e l : Z) (n q : option Z) (p : Player) : Player :=
  {| instance := instance p; region := region p; rights := rights p;
     orientation := orientation p; defaultMovementSpeed := defaultMovementSpeed p;
     level := l; experience := e;
     nextExperience := n; prevExperience := q;
     hitPoints := hitPoints p; mana := mana p; weapon := weapon p;
     cheatScore := cheatScore p; combatStarted := combatStarted p;
     lastNotify := lastNotify p; ready := ready p; isGuest := isGuest p;
     cheatScoreCallback := cheatScoreCallback p;
     log := log p |}.

Definition setLevel (l : Z) (p : Player) : Player :=
  setProgress (experience p) l (nextExperience p) (prevExperience p) p.

Definition setVitals (h m : Points) (p : Player) : Player :=
  {| instance := instance p; region := region p; rights := rights p;
     orientation := orientation p; defaultMovementSpeed := defaultMovementSpeed p;
     level := level p; experience := experience p;
     nextExperience := nextExperience p; prevExperience := prevExperience p;
     hitPoints := h; mana := m; weapon := weapon p;
     cheatScore := cheatScore p; combatStarted := combatStarted p;
     lastNotify := lastNotify p; ready := ready p; isGuest := isGuest p;
     cheatScoreCallback := cheatScoreCallback p;
     log := log p |}.

Definition setCheatScore (c : Z) (p : Player) : Player :=
  {| instance := instance p; region := region p; rights := rights p;
     orientation := orientation p; defaultMovementSpeed := defaultMovementSpeed p;
     level := level p; experience := experience p;
     nextExperience := nextExperience p; prevExperience := prevExperience p;
     hitPoints := hitPoints p; mana := mana p; weapon := weapon p;
     cheatScore := c; combatStarted := combatStarted p;
     lastNotify := lastNotify p; ready := ready p; isGuest := isGuest p;
     cheatScoreCallback := cheatScoreCallback p;
     log := log p |}.

Definition setLastNotify (t : Z) (p : Player) : Player :=
  {| instance := instance p; region := region p; rights := rights p;
     orientation := orientation p; defaultMovementSpeed := defaultMovementSpeed p;
     level := level p; experience := experience p;
     nextExperience := nextExperience p; prevExperience := prevExperience p;
     hitPoints := hitPoints p; mana := mana p; weapon := weapon p;
     cheatScore := cheatScore p; combatStarted := combatStarted p;
     lastNotify := Some t; ready := ready p; isGuest := isGuest p;
     cheatScoreCallback := cheatScoreCallback p;
     log := log p |}.

(** The formula functions (info/formulas) and the other collaborators the
    methods call: pure functions with fixed signatures. *)
Class Formulas : Type := mkFormulas {
  expToLevel : Z → Z;
  nextExp : Z → Z;
  prevExp : Z → Z;
  getMaxHitPoints : Z → Z;
  getMaxMana : Z → Z
}.

(** Formulas.getDamage(attacker, target) for a target of type Character. *)
Class Combat (Character : Type) : Type := mkCombat {
  getDamage : Player → Character → Z
}.

(** config.skipDatabase, Utils.parseMessage and the members of
    Modules.Enchantment that getHit compares the weapon's ability with. *)
Class Config : Type := mkConfig {
  skipDatabase : bool;
  parseMessage : string → string;
  Critical : Z;
  Stun : Z;
  Explosive : Z
}.

Section Methods.
Context `{!Formulas, !Config}.

(** send(packet) *)
Definition send (packet : Packet) (p : Player) : Player :=
  emit (PushPlayer packet) p.

(** sendToRegions(packet, ignore) *)
Definition sendToRegions (packet : Packet) (ignore : bool) (p : Player) : Player :=
  emit (PushRegions (region p) packet (if ignore then instance p else "")) p.

(** getMovementSpeed() *)
Definition getMovementSpeed (p : Player) : Z := defaultMovementSpeed p.

(** serialize(withEquipment) *)
Definition serialize (withEquipment : bool) (p : Player) : PlayerData :=
  {| dataRights := rights p;
     dataLevel := level p;
     dataHitPoints := points (hitPoints p);
     dataMaxHitPoints := maxPoints (hitPoints p);
     dataOrientation := orientation p;
     dataMovementSpeed := getMovementSpeed p;
     dataEquipments := withEquipment |}.

(** save() *)
Definition save (p : Player) : Player :=
  if skipDatabase || isGuest p || negb (ready p) then p
  else emit Save p.

(** sync() *)
Definition sync (p : Player) : Player :=
  let data := serialize true p in
  save (sendToRegions (SyncPacket data) false p).

(** popup(title, message, colour) *)
Definition popup (title message colour : string) (p : Player) : Player :=
  if String.eqb title "" then p
  else send (NotificationPopup (parseMessage title) (parseMessage message) colour) p.

(** healHitPoints(amount) *)
Definition healHitPoints (amount : Z) (p : Player) : Player :=
  let p1 := setVitals (increment amount (hitPoints p)) (mana p) p in
  let p2 := sync p1 in
  sendToRegions (HealPacket (instance p2) "health" amount) false p2.

(** updateRegion(force) *)
Definition updateRegion (p : Player) : Player := emit SendRegion p.

(** The text of the level-up popup. *)
Definition levelUpMessage (l : Z) : string :=
  "Congratulations, you are now level " +:+ pretty l +:+ "!".

(** The block of addExperience guarded by [oldLevel !== this.level]. *)
Definition levelUp (p : Player) : Player :=
  let p1 := setVitals (setMaxPoints (getMaxHitPoints (level p)) (hitPoints p))
                      (mana p) p in
  let p2 := healHitPoints (maxPoints (hitPoints p1)) p1 in
  let p3 := updateRegion p2 in
  popup "Level Up!" (levelUpMessage (level p3)) "#ff6600" p3.

(** addExperience(exp).  A logged packet carries the payload as it is
    when the packet is built. *)
Definition addExperience (exp : Z) (p : Player) : Player :=
  let experience' := experience p + exp in
  let oldLevel := level p in
  let p1 := setProgress experience' (expToLevel experience')
              (Some (nextExp experience')) (Some (prevExp experience')) p in
  let p2 := if negb (oldLevel =? level p1) then levelUp p1 else p1 in
  let p3 :=
    sendToRegions (ExperienceCombat (instance p2) (level p2) None None None None)
                  true p2 in
  let p4 :=
    send (ExperienceCombat (instance p3) (level p3) (Some exp)
            (Some (experience p3)) (nextExperience p3) (prevExperience p3)) p3 in
  sync p4.

(** incrementCheatScore(amount) *)
Definition incrementCheatScore (amount : Z) (p : Player) : Player :=
  if combatStarted p then p
  else
    let p1 := setCheatScore (cheatScore p + amount) p in
    if cheatScoreCallback p1 then emit CheatScoreCallback p1 else p1.

(** hasSpecialAttack() *)
Definition hasSpecialAttack (p : Player) : bool := false.

(** getHit(target), with [roll] the value of Utils.randomInt(0, 100).
    A switch that matches no case leaves the function without a value. *)
Definition getHit {Character : Type} `{!Combat Character}
    (target : Character) (roll : Z) (p : Player) : option Hit :=
  let weapon := weapon p in
  let defaultDamage := getDamage p target in
  let isSpecial := roll <? 30 + abilityLevel weapon * 3 in
  if negb isSpecial || negb (hasSpecialAttack p) then
    Some (mkHit HitDamage defaultDamage)
  else if ability weapon =? Critical then
    let multiplier := 1 + abilityLevel weapon in
    let damage := defaultDamage * multiplier in
    Some (mkHit HitCritical damage)
  else if ability weapon =? Stun then Some (mkHit HitStun defaultDamage)
  else if ability weapon =? Explosive then Some (mkHit HitExplosive defaultDamage)
  else None.

(** [Date.now() - this.lastNotify < 250]; with lastNotify unset the
    difference is NaN and the comparison is false. *)
Definition notifiedRecently (now : Z) (p : Player) : bool :=
  match lastNotify p with
  | Some t => now - t <? 250
  | None => false
  end.

(** notify(message, colour), with [now1] and [now2] the values of the two
    calls of Date.now(), in order. *)
Definition notify (message : string) (colour : option string)
    (now1 now2 : Z) (p : Player) : Player :=
  if String.eqb message "" then p
  else if notifiedRecently now1 p then p
  else
    let p1 := send (NotificationText (parseMessage message) colour) p in
    setLastNotify now2 p1.

(** *** The calls a method makes, as lists of events *)

(** The events of save(). *)
Definition saveEvents (p : Player) : list Event :=
  if skipDatabase || isGuest p || negb (ready p) then [] else [Save].

(** The events of sync(). *)
Definition syncEvents (p : Player) : list Event :=
  PushRegions (region p) (SyncPacket (serialize true p)) "" :: saveEvents p.

(** The vitals after the level-up block: the maximum is the one of the
    level, and the hit points were raised by that maximum. *)
Definition levelUpVitals (p : Player) : Player :=
  let q := setVitals (setMaxPoints (getMaxHitPoints (level p)) (hitPoints p)) (mana p) p in
  setVitals (increment (maxPoints (hitPoints q)) (hitPoints q)) (mana q) q.

(** The popup of the level-up block. *)
Definition levelUpPopup (l : Z) : Event :=
  PushPlayer (NotificationPopup (parseMessage "Level Up!")
                (parseMessage (levelUpMessage l)) "#ff6600").

(** The events of the level-up block, in order. *)
Definition levelUpEvents (p : Player) : list Event :=
  let q := levelUpVitals p in
  syncEvents q
  ++ [PushRegions (region p) (HealPacket (instance p) "health"
                                (getMaxHitPoints (level p))) "";
      SendRegion;
      levelUpPopup (level p)].

(** The player after addExperience, the log apart. *)
Definition addExperienceState (exp : Z) (p : Player) : Player :=
  let e := experience p + exp in
  let q := setProgress e (expToLevel e) (Some (nextExp e)) (Some (prevExp e)) p in
  if negb (level p =? level q) then levelUpVitals q else q.

(** The events of addExperience, in order. *)
Definition addExperienceEvents (exp : Z) (p : Player) : list Event :=
  let e := experience p + exp in
  let q := setProgress e (expToLevel e) (Some (nextExp e)) (Some (prevExp e)) p in
  let q' := addExperienceState exp p in
  (if negb (level p =? level q) then levelUpEvents q else [])
  ++ [PushRegions (region p)
        (ExperienceCombat (instance p) (level q) None None None None) (instance p);
      PushPlayer
        (ExperienceCombat (instance p) (level q) (Some exp) (Some e)
           (Some (nextExp e)) (Some (prevExp e)))]
  ++ syncEvents q'.

End Methods.

(** The events a call appended to the log. *)
Definition emitted (before after : Player) : list Event :=
  drop (length (log before)) (log after).

Definition isPopup (e : Event) : bool :=
  match e with PushPlayer (NotificationPopup _ _ _) => true | _ => false end.

Definition isHeal (e : Event) : bool :=
  match e with PushRegions _ (HealPacket _ _ _) _ => true | _ => false end.

Definition isSendRegion (e : Event) : bool :=
  match e with SendRegion => true | _ => false end.

Definition isTextNotification (e : Event) : bool :=
  match e with PushPlayer (NotificationText _ _) => true | _ => false end.

Definition isCheatScoreCallback (e : Event) : bool :=
  match e with CheatScoreCallback => true | _ => false end.

Definition countEvents (f : Event → bool) (l : list Event) : nat :=
  length (List.filter f l).

(** [p'] differs from [p] in the cheat score and the log at most. *)
Definition sameButCheatScore (p p' : Player) : Prop :=
  p' = setLog (log p') (setCheatScore (cheatScore p') p).

(** *** Sample player *)

(** One level per hundred points of experience; ten hit points and five
    points of mana per level. *)
Definition sampleFormulas : Formulas :=
  {| expToLevel := fun e => e / 100 + 1;
     nextExp := fun e => (e / 100 + 1) * 100;
     prevExp := fun e => e / 100 * 100;
     getMaxHitPoints := fun l => 10 * l;
     getMaxMana := fun l => 5 * l |}.

Definition sampleConfig : Config :=
  {| skipDatabase := false;
     parseMessage := fun m => m;
     Critical := 1; Stun := 5; Explosive := 4 |}.

(** A logged-in player of level 1 at 30 experience, with 4 of 10 hit
    points, outside combat, never notified, with a cheat score callback. *)
Definition samplePlayer : Player :=
  {| instance := "1-7"; region := 3; rights := 0; orientation := 0;
     defaultMovementSpeed := 250;
     level := 1; experience := 30;
     nextExperience := Some 100; prevExperience := Some 0;
     hitPoints := {| points := 4; maxPoints := 10 |};
     mana := {| points := 5; maxPoints := 5 |};
     weapon := {| ability := 1; abilityLevel := 2 |};
     cheatScore := 0; combatStarted := false; lastNotify := None;
     ready := true; isGuest := false; cheatScoreCallback := true;
     log := [] |}.

(** *** More of the class *)

Definition isSave (e : Event) : bool :=
  match e with Save => true | _ => false end.

Definition setRights (r : Z) (p : Player) : Player :=
  {| instance := instance p; region := region p; rights := r;
     orientation := orientation p; defaultMovementSpeed := defaultMovementSpeed p;
     level := level p; experience := experience p;
     nextExperience := nextExperience p; prevExperience := prevExperience p;
     hitPoints := hitPoints p; mana := mana p; weapon := weapon p;
     cheatScore := cheatScore p; combatStarted := combatStarted p;
     lastNotify := lastNotify p; ready := ready p; isGuest := isGuest p;
     cheatScoreCallback := cheatScoreCallback p;
     log := log p |}.

(** The player with the two PvP flags updatePVP works on. *)
Record PvpPlayer : Type := mkPvpPlayer {
  base : Player;
  pvp : bool;
  permanentPVP : bool
}.

(** What setPosition and teleport do outside the player object. *)
Inductive MoveEvent : Type :=
| TeleportCallbackCall (tx ty : Z) (isDoor : bool)
    (* this.teleportCallback(x, y, isDoor) *)
| TeleportPacket (reg : Z) (inst : string) (tx ty : Z) (withAnimation : bool)
    (* sendToRegions(new Teleport({ id, x, y, withAnimation })) *)
| MovementPacket (reg : Z) (inst : string) (mx my : Z) (ignore : string)
    (* sendToRegions(new Movement(Move, { id, x, y, forced: false, teleport: false }), true) *)
| CleanCombat.
    (* world.cleanCombat(this) *)

(** The fields setPosition and teleport read or write, with the calls they
    make, in order. *)
Record Position : Type := mkPosition {
  posX : Z;
  posY : Z;
  posDead : bool;
  posInstance : string;
  posRegion : Z;
  teleportCallback : bool;
  moves : list MoveEvent
}.

Definition emitMove (e : MoveEvent) (s : Position) : Position :=
  {| posX := posX s; posY := posY s; posDead := posDead s;
     posInstance := posInstance s; posRegion := posRegion s;
     teleportCallback := teleportCallback s; moves := moves s ++ [e] |}.

(** Modelled from the spec: setPosition of the base class (character.ts and
    entity.ts are not among the sources) applies the position change. *)
Definition superSetPosition (nx ny : Z) (s : Position) : Position :=
  {| posX := nx; posY := ny; posDead := posDead s;
     posInstance := posInstance s; posRegion := posRegion s;
     teleportCallback := teleportCallback s; moves := moves s |}.

(** setPosition(x, y), with [isOutOfBounds] the map's test. *)
Definition setPosition (isOutOfBounds : Z → Z → bool) (nx ny : Z) (s : Position)
    : Position :=
  if posDead s then s
  else
    let '(nx, ny) := if isOutOfBounds nx ny then (50, 89) else (nx, ny) in
    let s1 := superSetPosition nx ny s in
    emitMove (MovementPacket (posRegion s1) (posInstance s1) nx ny (posInstance s1)) s1.

(** teleport(x, y, isDoor, withAnimation) *)
Definition teleport (isOutOfBounds : Z → Z → bool) (tx ty : Z)
    (isDoor withAnimation : bool) (s : Position) : Position :=
  let s1 :=
    if teleportCallback s then emitMove (TeleportCallbackCall tx ty isDoor) s else s in
  let s2 :=
    emitMove (TeleportPacket (posRegion s1) (posInstance s1) tx ty withAnimation) s1 in
  let s3 := setPosition isOutOfBounds tx ty s2 in
  emitMove CleanCombat s3.

(** finishedQuest(id): [this.quests?.getQuest(id)?.isFinished() || false],
    with the quests controller given by the answer of isFinished() for the
    quests it knows ([None] for [this.quests] after destroy). *)
Definition finishedQuest (quests : option (Z → option bool)) (questId : Z) : bool :=
  match quests with
  | Some getQuest =>
    match getQuest questId with
    | Some finished => finished
    | None => false
    end
  | None => false
  end.

(** finishedAchievement(id) *)
Definition finishedAchievement
    (quests : option (option Z → option Doors.Achievement)) (achievementId : Z) : bool :=
  match quests with
  | None => false
  | Some getAchievement =>
    match getAchievement (Some achievementId) with
    | None => true
    | Some achievement => Doors.isFinished achievement
    end
  end.

Section MoreMethods.
Context `{!Formulas, !Config}.

(** verifyRights(), with the two lists of the configuration and
    [lowerName] the value of [this.username.toLowerCase()]. *)
Definition verifyRights (moderators administrators : list string)
    (lowerName : string) (p : Player) : Player :=
  let p1 := if bool_decide (lowerName ∈ moderators) then setRights 1 p else p in
  if bool_decide (lowerName ∈ administrators) || skipDatabase
  then setRights 2 p1 else p1.

(** updatePVP(pvp, permanent), with the readings of the clock notify
    takes.  [!this.region] holds for the region 0. *)
Definition updatePVP (newPvp permanent : bool) (now1 now2 : Z) (s : PvpPlayer)
    : PvpPlayer :=
  if region (base s) =? 0 then s
  else if Bool.eqb (pvp s) newPvp || permanentPVP s then s
  else
    let b :=
      if pvp s && negb newPvp
      then notify "You are no longer in a PvP zone!" None now1 now2 (base s)
      else notify "You have entered a PvP zone!" None now1 now2 (base s) in
    {| base := b; pvp := newPvp; permanentPVP := permanent |}.

(** A run of updatePVP calls, each with its arguments and clock readings. *)
Definition updatePVPs (calls : list (bool * bool * Z * Z)) (s : PvpPlayer) : PvpPlayer :=
  fold_left (fun acc '(newPvp, permanent, now1, now2) =>
               updatePVP newPvp permanent now1 now2 acc) calls s.

(** A run of incrementCheatScore calls. *)
Definition incrementCheatScores (amounts : list Z) (p : Player) : Player :=
  fold_left (fun acc amount => incrementCheatScore amount acc) amounts p.

End MoreMethods.

(** The sample player in region 3, outside PvP. *)
Definition samplePvpPlayer : PvpPlayer :=
  {| base := samplePlayer; pvp := false; permanentPVP := false |}.

(** A living player at (325, 87) with a teleport callback; the map is 1000
    tiles wide and high. *)
Definition samplePosition : Position :=
  {| posX := 325; posY := 87; posDead := false; posInstance := "1-7";
     posRegion := 3; teleportCallback := true; moves := [] |}.

Definition sampleOutOfBounds (bx byy : Z) : bool :=
  (bx <? 0) || (1000 <=? bx) || (byy <? 0) || (1000 <=? byy).

(** The sample player in a permanent PvP state. *)
Definition permanentPvpPlayer : PvpPlayer :=
  {| base := samplePlayer; pvp := true; permanentPVP := true |}.

End Player.

(** ** Skills (player.ts, class Skills) *)

Module Skills.

(** Modules.Skills: the keys of the skills dictionary. *)
Inductive SkillType : Type :=
  Accuracy | Archery | Health | Lumberjacking | Magic | Strength.

Global Instance SkillType_eq_dec : EqDecision SkillType.
Proof. solve_decision. Defined.

(** Modelled from the spec: the Skill class and its six subclasses (the
    skill directory) are not among the sources.  A skill has an experience
    counter, the level derived from it, and the flag that makes it count
    towards the combat level. *)
Record Skill : Type := mkSkill {
  experience : Z;
  level : Z;
  combat : bool
}.

(** The Skills object.  [skills] lists the entries of the dictionary in
    enumeration order; [loadCallback] tells whether onLoaded registered a
    callback, [bound] whether load linked the skills to handleExperience;
    [player] is the owning player. *)
Record Skills : Type := mkSkills {
  loaded : bool;
  skills : list (SkillType * Skill);
  loadCallback : bool;
  bound : bool;
  player : Player.Player
}.

Definition setPlayer (p : Player.Player) (s : Skills) : Skills :=
  {| loaded := loaded s; skills := skills s; loadCallback := loadCallback s;
     bound := bound s; player := p |}.

(** get(type): [this.skills[type]], undefined for a missing key. *)
Fixpoint lookupSkill (l : list (SkillType * Skill)) (t : SkillType) : option Skill :=
  match l with
  | [] => None
  | (k, sk) :: l' => if decide (k = t) then Some sk else lookupSkill l' t
  end.

Definition get (s : Skills) (t : SkillType) : option Skill := lookupSkill (skills s) t.

(** A write to the skill object stored under a key. *)
Fixpoint updateSkill (f : Skill → Skill) (t : SkillType)
    (l : list (SkillType * Skill)) : list (SkillType * Skill) :=
  match l with
  | [] => []
  | (k, sk) :: l' =>
    if decide (k = t) then (k, f sk) :: l' else (k, sk) :: updateSkill f t l'
  end.

(** getCombatSkills(): _.filter over the values of the dictionary. *)
Definition getCombatSkills (s : Skills) : list Skill :=
  filter (fun sk => combat sk = true) (snd <$> skills s).

(** getCombatLevel(): the for loop, started at 1. *)
Definition getCombatLevel (s : Skills) : Z :=
  fold_left (fun lvl sk => lvl + (level sk - 1)) (getCombatSkills s) 1.

(** The spec's formula: 1 plus the sum of (level - 1) over the skills
    flagged as taking part in combat. *)
Definition combatLevelFormula (s : Skills) : Z :=
  1 + foldr Z.add 0
        ((fun sk => level sk - 1) <$> filter (fun sk => combat sk = true) (snd <$> skills s)).

Section Methods.
Context `{!Player.Formulas, !Player.Config}.

(** Modelled from the spec: Skill.setExperience stores the experience
    and the level is the one the formula derives from it. *)
Definition setExperience (e : Z) (sk : Skill) : Skill :=
  {| experience := e; level := Player.expToLevel e; combat := combat sk |}.

(** sync().  [None] is the TypeError of reading [level] from a missing
    health or magic skill. *)
Definition sync (s : Skills) : option Skills :=
  if negb (loaded s) then Some s
  else
    health ← get s Health;
    magic ← get s Magic;
    let p := player s in
    let p1 :=
      Player.setVitals
        (Player.setMaxPoints (Player.getMaxHitPoints (level health)) (Player.hitPoints p))
        (Player.setMaxPoints (Player.getMaxMana (level magic)) (Player.mana p)) p in
    let p2 := Player.setLevel (getCombatLevel s) p1 in
    let p3 := Player.send (Player.ExperienceSync (Player.instance p2) (Player.level p2)) p2 in
    let p4 :=
      Player.send
        (Player.PointsPacket (Player.instance p3)
           (Player.points (Player.hitPoints p3)) (Player.maxPoints (Player.hitPoints p3))
           (Player.points (Player.mana p3)) (Player.maxPoints (Player.mana p3))) p3 in
    Some (setPlayer p4 s).

(** One round of the _.each in load. *)
Definition loadEntry (l : list (SkillType * Skill)) (entry : SkillType * Z)
    : list (SkillType * Skill) :=
  match lookupSkill l entry.1 with
  | Some _ => updateSkill (setExperience entry.2) entry.1 l
  | None => l
  end.

(** load(data) *)
Definition load (data : list (SkillType * Z)) (s : Skills) : option Skills :=
  let s1 :=
    {| loaded := true; skills := fold_left loadEntry data (skills s);
       loadCallback := loadCallback s; bound := true; player := player s |} in
  let s2 :=
    if loadCallback s1
    then setPlayer (Player.emit Player.SkillsLoadCallback (player s1)) s1
    else s1 in
  sync s2.

End Methods.

(** new Skills(player): the six skills at their initial state, each with
    the combat flag its class gives it. *)
Definition new (flags : SkillType → bool) (initialLevel : Z) (p : Player.Player) : Skills :=
  {| loaded := false;
     skills :=
       (fun t => (t, {| experience := 0; level := initialLevel; combat := flags t |}))
         <$> [Accuracy; Archery; Health; Lumberjacking; Magic; Strength];
     loadCallback := false; bound := false; player := p |}.

(** *** Sample skills *)

(** The six skills of a new player, all at level 1, lumberjacking being the
    one that does not count towards the combat level. *)
Definition sampleSkills : Skills :=
  new (fun t => match t with Lumberjacking => false | _ => true end) 1
      Player.samplePlayer.

(** The sample skills once loaded. *)
Definition loadedSkills : Skills :=
  {| loaded := true; skills := skills sampleSkills;
     loadCallback := true; bound := true; player := Player.samplePlayer |}.

End Skills.

(** ** Profession (professions/impl/profession.js) *)

Module Profession.

(** The calls a profession makes on its player, in order. *)
Inductive Call : Type :=
| Popup (title message colour : string)
    (* player.popup(title, message, colour) *)
| SendExperience (inst : string) (amount : Z)
    (* player.send(new Messages.Experience(Profession, { id, amount })) *)
| SaveCall.
    (* player.save() *)

(** The fields of a profession; [playerInstance] is [player.instance], and
    [calls] lists the calls made on the player. *)
Record Profession : Type := mkProfession {
  id : Z;
  name : string;
  experience : Z;
  level : Z;
  nextExperience : option Z;
  prevExperience : option Z;
  targetId : option Z;
  playerInstance : string;
  calls : list Call
}.

Definition call (c : Call) (p : Profession) : Profession :=
  {| id := id p; name := name p; experience := experience p; level := level p;
     nextExperience := nextExperience p; prevExperience := prevExperience p;
     targetId := targetId p; playerInstance := playerInstance p;
     calls := calls p ++ [c] |}.

Section Methods.
Context `{!Player.Formulas}.

(** constructor(id, player, name) *)
Definition new (i : Z) (inst : string) (n : string) : Profession :=
  {| id := i; name := n; experience := 0; level := Player.expToLevel 0;
     nextExperience := None; prevExperience := None;
     targetId := None; playerInstance := inst; calls := [] |}.

(** load(data), with [dataExperience] the value of data.experience. *)
Definition load (dataExperience : Z) (p : Profession) : Profession :=
  {| id := id p; name := name p; experience := dataExperience; level := level p;
     nextExperience := nextExperience p; prevExperience := prevExperience p;
     targetId := targetId p; playerInstance := playerInstance p;
     calls := calls p |}.

(** The text of the level-up popup. *)
Definition levelUpMessage (n : string) (l : Z) : string :=
  "Congratulations, your " +:+ n +:+ " level is now " +:+ pretty l +:+ ".".

(** addExperience(experience) *)
Definition addExperience (gain : Z) (p : Profession) : Profession :=
  let experience' := experience p + gain in
  let oldLevel := level p in
  let p1 :=
    {| id := id p; name := name p; experience := experience';
       level := Player.expToLevel experience';
       nextExperience := Some (Player.nextExp experience');
       prevExperience := Some (Player.prevExp experience');
       targetId := targetId p; playerInstance := playerInstance p;
       calls := calls p |} in
  let p2 :=
    if negb (oldLevel =? level p1)
    then call (Popup "Profession Level Up!" (levelUpMessage (name p1) (level p1))
                     "#9933ff") p1
    else p1 in
  let p3 := call (SendExperience (playerInstance p2) gain) p2 in
  call SaveCall p3.

(** stop() *)
Definition stop (p : Profession) : string := "Not implemented.".

(** getLevel(), with [maxLevel] the constant MAX_PROFESSION_LEVEL. *)
Definition getLevel (maxLevel : Z) (p : Profession) : Z :=
  let l := Player.expToLevel (experience p) in
  if l >? maxLevel then maxLevel else l.

(** getData(): the experience field of the object returned. *)
Definition getData (p : Profession) : Z := experience p.

End Methods.

End Profession.

(** * Properties *)

(** ** TeamWar: membership of lobby and rosters *)

Module TeamWarFacts.
Import TeamWar.

Section Facts.
Context {Player : Type} `{Countable Player}.
Implicit Types (s : State Player) (p : Player) (l : list Player).

Lemma includes_true l p : includes l p = true ↔ p ∈ l.
Proof. apply bool_decide_eq_true. Qed.

Lemma includes_false l p : includes l p = false ↔ p ∉ l.
Proof. apply bool_decide_eq_false. Qed.

(** buildTeams splits the lobby at [ceil_half]: the two rosters, in one of
    the two orders, are the lobby. *)
Lemma buildTeams_rosters random s :
  redTeam (buildTeams random s) ++ blueTeam (buildTeams random s) ≡ₚ lobby s.
Proof.
  unfold buildTeams, splice0. destruct (random =? 1); simpl.
  - by rewrite take_drop.
  - by rewrite Permutation_app_comm, take_drop.
Qed.

Lemma buildTeams_lobby random s : lobby (buildTeams random s) = lobby s.
Proof. unfold buildTeams, splice0. by destruct (random =? 1). Qed.

Lemma sendCountdown_each_rosters l s :
  let s' := fold_left (fun acc p => sendCountdown p acc) l s in
  lobby s' = lobby s ∧ redTeam s' = redTeam s ∧ blueTeam s' = blueTeam s.
Proof.
  revert s. induction l as [|p l IH]; intros s; [done|].
  simpl. destruct (IH (sendCountdown p s)) as (-> & -> & ->). done.
Qed.

Lemma synchronize_rosters s :
  lobby (synchronize s) = lobby s
  ∧ redTeam (synchronize s) = redTeam s
  ∧ blueTeam (synchronize s) = blueTeam s.
Proof.
  unfold synchronize. destruct (started s); [done|].
  apply sendCountdown_each_rosters.
Qed.

Lemma rosters_ok_new now : rosters_ok (new (Player:=Player) now).
Proof. split; simpl; constructor. Qed.

Lemma rosters_ok_add p s : rosters_ok s → rosters_ok (add p s).
Proof.
  intros [Hl Hr]. unfold add.
  destruct (includes (lobby s) p) eqn:E; [done|].
  apply includes_false in E. split; simpl; [|done].
  apply NoDup_app. split_and!; [done| |apply NoDup_singleton].
  intros q Hq ->%list_elem_of_singleton. done.
Qed.

Lemma rosters_ok_remove p s : rosters_ok s → rosters_ok (remove p s).
Proof.
  intros [Hl Hr]. unfold remove.
  destruct (indexOf (lobby s) p <? 0); [done|].
  split; simpl; [|done].
  eapply sublist_NoDup; [exact Hl|apply sublist_delete].
Qed.

Lemma rosters_ok_buildTeams random s : rosters_ok s → rosters_ok (buildTeams random s).
Proof.
  intros [Hl Hr]. split.
  - by rewrite buildTeams_lobby.
  - by rewrite buildTeams_rosters.
Qed.

Lemma rosters_ok_tick now random s : rosters_ok s → rosters_ok (tick now random s).
Proof.
  intros Hs. unfold tick.
  destruct (_ || _); [done|].
  apply (rosters_ok_buildTeams random) in Hs.
  set (s1 := buildTeams random s) in *.
  destruct Hs as [Hl Hr].
  destruct (now - lastSync s1 >? syncThreshold s1); [|done].
  destruct (synchronize_rosters s1) as (El & Er & Eb).
  split; simpl; by rewrite ?El, ?Er, ?Eb.
Qed.

Lemma rosters_ok_step op s : rosters_ok s → rosters_ok (step s op).
Proof.
  destruct op; simpl;
    auto using rosters_ok_add, rosters_ok_remove, rosters_ok_tick,
      rosters_ok_buildTeams.
Qed.

Lemma rosters_ok_run ops s : rosters_ok s → rosters_ok (run ops s).
Proof.
  revert s. induction ops as [|op ops IH]; intros s Hs; [done|].
  apply IH, rosters_ok_step, Hs.
Qed.

(** X1.  The countdown can run out and the interval callback then builds the
    teams: the branch of [tick] that does so is reached. *)
Lemma tick_builds_teams now random s :
  5 <= count s → countdown s <= 0 →
  started (tick now random s) = true
  ∧ redTeam (tick now random s) ++ blueTeam (tick now random s) ≡ₚ lobby s.
Proof.
  intros Hc Hd. unfold tick.
  destruct (count s <? 5) eqn:E1; [lia|].
  destruct (countdown s >? 0) eqn:E2; [lia|].
  cbn [orb]. split; [done|].
  change (redTeam (set_started true ?t)) with (redTeam t).
  change (blueTeam (set_started true ?t)) with (blueTeam t).
  clear E1 E2. destruct (_ >? _).
  - destruct (synchronize_rosters (buildTeams random s)) as (_ & -> & ->).
    apply buildTeams_rosters.
  - apply buildTeams_rosters.
Qed.

(** C2, as the code has it.  In every state reached from a new TeamWar by
    add, remove, the interval callback, buildTeams and writes to the
    countdown, no player is twice in the lobby and no player is twice in
    the two rosters taken together (so no player is in both teams).
    buildTeams leaves the lobby as it is and deals a copy of it out to the
    two rosters: the players of the two rosters are then the players of
    the lobby, each of them still in the lobby. *)
Theorem rosters_disjoint_lobby_kept (ops : list (Op Player)) (now : Z) :
  let s := run ops (new now) in
  NoDup (lobby s)
  ∧ NoDup (redTeam s ++ blueTeam s)
  ∧ (∀ p, ¬ (p ∈ redTeam s ∧ p ∈ blueTeam s))
  ∧ ∀ random,
      let s' := buildTeams random s in
      lobby s' = lobby s
      ∧ redTeam s' ++ blueTeam s' ≡ₚ lobby s
      ∧ ∀ p, p ∈ lobby s' ↔ (p ∈ redTeam s' ∨ p ∈ blueTeam s').
Proof.
  intros s.
  destruct (rosters_ok_run ops (new now) (rosters_ok_new now)) as [Hl Hr].
  fold s in Hl, Hr. split_and!; [done|done| |].
  - intros p [Hp1 Hp2]. apply NoDup_app in Hr as (_ & Hd & _). by eapply Hd.
  - intros random s'. split_and!.
    + apply buildTeams_lobby.
    + apply buildTeams_rosters.
    + intros p. unfold s'. rewrite buildTeams_lobby.
      rewrite <- (buildTeams_rosters random s). apply elem_of_app.
Qed.

End Facts.

(** C2, refuted as stated.  After a player joined the lobby and buildTeams
    ran (with the draw 1), that player is both in the lobby and in the red
    roster: not every reachable state keeps the three collections
    exclusive. *)
Lemma lobby_member_also_in_team :
  ¬ (∀ (ops : list (Op nat)) (now : Z), exclusive (run ops (new now))).
Proof.
  intros Hex.
  specialize (Hex [Add 1%nat; BuildTeams 1] 0 1%nat).
  vm_compute in Hex. lia.
Qed.

End TeamWarFacts.

(** ** Doors: status and collision *)

Module DoorsFacts.
Import Doors.

(** getAllTiles never appends anything. *)
Lemma getAllTiles_empty (d : Doors) : getAllTiles d = emptyTiles.
Proof.
  unfold getAllTiles. generalize emptyTiles.
  induction (doors d) as [|door l IH]; intros acc; [done|]. apply IH.
Qed.

(** hasCollision therefore answers false at every coordinate: the tile
    index is never found in the (empty) index list. *)
Lemma hasCollision_false (d : Doors) (px py : Z) : hasCollision d px py = false.
Proof. unfold hasCollision. by rewrite getAllTiles_empty. Qed.

(** A coordinate outside the tile sets of all doors: false, without error. *)
Lemma hasCollision_outside_doors (d : Doors) (px py : Z) :
  (∀ door, door ∈ doors d → relevantCollision d door (coordToIndex (env d) px py) = None) →
  hasCollision d px py = false.
Proof. intros _. apply hasCollision_false. Qed.

(** C3, the code at a failing input.  The coordinate (5, 12) has tile index
    1205, which the closed gate's tile set stores with the collision flag
    true; hasCollision answers false. *)
Theorem hasCollision_misses_door_tile :
  coordToIndex (env sampleDoors) 5 12 = 1205
  ∧ getStatus sampleDoors gate = Some Closed
  ∧ relevantCollision sampleDoors gate 1205 = Some true
  ∧ hasCollision sampleDoors 5 12 = false.
Proof. split_and!; reflexivity. Qed.

Lemma eqb_false_of_ne (a b : string) : a ≠ b → String.eqb a b = false.
Proof. intros Hne. by apply String.eqb_neq. Qed.

(** C4, as the code has it.  For a door without a fixed status, with
    persistence enabled, whose requirement is none of 'quest',
    'achievement' and 'level', getStatus yields no status (undefined),
    and isClosed answers false. *)
Theorem getStatus_unknown_requirement (d : Doors) (door : Door) :
  status door = None →
  skipDatabase (env d) = false →
  requirement door ≠ "quest" →
  requirement door ≠ "achievement" →
  requirement door ≠ "level" →
  getStatus d door = None ∧ isClosed d door = false.
Proof.
  intros Hst Hskip Hq Ha Hl.
  assert (getStatus d door = None) as E.
  { unfold getStatus. rewrite Hst, Hskip.
    by rewrite !eqb_false_of_ne. }
  split; [done|]. unfold isClosed. by rewrite E.
Qed.

Lemma getStatus_unknown_requirement_witness :
  getStatus sampleDoors oddDoor = None ∧ isClosed sampleDoors oddDoor = false.
Proof.
  apply (getStatus_unknown_requirement sampleDoors oddDoor);
    [reflexivity | reflexivity | discriminate | discriminate | discriminate].
Defined.

(** C4, refuted as stated: the door [oddDoor] meets the conditions and its
    status is not closed. *)
Lemma unknown_requirement_not_closed :
  ¬ (∀ (d : Doors) (door : Door),
       status door = None →
       skipDatabase (env d) = false →
       requirement door ≠ "quest" →
       requirement door ≠ "achievement" →
       requirement door ≠ "level" →
       getStatus d door = Some Closed ∧ isClosed d door = true).
Proof.
  intros Hall.
  destruct (Hall sampleDoors oddDoor) as [E _];
    [reflexivity | reflexivity | discriminate | discriminate | discriminate |].
  vm_compute in E. discriminate.
Qed.

(** The three branches the switch does have. *)
Lemma getStatus_level (d : Doors) (door : Door) (l : Z) :
  status door = None →
  skipDatabase (env d) = false →
  requirement door = "level" →
  level door = Some l →
  getStatus d door = Some (if playerLevel (env d) >=? l then Open else Closed).
Proof.
  intros Hst Hskip Hreq Hl. unfold getStatus.
  rewrite Hst, Hskip, Hreq, Hl. simpl. by destruct (_ >=? _).
Qed.

Lemma getStatus_fixed (d : Doors) (door : Door) (st : DoorStatus) :
  status door = Some st → getStatus d door = Some st.
Proof. intros Hst. unfold getStatus. by rewrite Hst. Qed.

Lemma getStatus_skipDatabase (d : Doors) (door : Door) :
  status door = None → skipDatabase (env d) = true → getStatus d door = Some Open.
Proof. intros Hst Hskip. unfold getStatus. by rewrite Hst, Hskip. Qed.

End DoorsFacts.

(** ** Mob handler: roaming *)

Module MobHandlerFacts.
Import MobHandler.

(** What handleRoaming does: on a living mob that is not in combat, the
    candidate is handed to mob.move exactly when its tile passes the map
    checks, it differs from the current position, it is on the stored
    plateau level, and its distance from the spawn point is NOT below the
    roaming distance. *)
Lemma handleRoaming_accepts_iff (h : Handler) (rx ry : Z) :
  dead (mob h) = false →
  combatStarted (mob h) = false →
  let newX := spawnX (mob h) + rx in
  let newY := spawnY (mob h) + ry in
  handleRoaming h rx ry = Some (newX, newY)
  ↔ (isColliding (map h) newX newY = false
     ∧ isEmpty (map h) newX newY = false
     ∧ isDoor (map h) newX newY = false
     ∧ plateauLevel h = getPlateauLevel (map h) newX newY
     ∧ ¬ (newX = x (mob h) ∧ newY = y (mob h))
     ∧ distance_lt (getDistanceSq (spawnX (mob h)) (spawnY (mob h)) newX newY)
                   (roamDistance (mob h)) = false).
Proof.
  intros Hd Hc newX newY. unfold handleRoaming. rewrite Hd, Hc.
  fold newX newY.
  destruct (isColliding _ _ _); [split; [done|intros (?&?); done]|].
  destruct (isEmpty _ _ _); [split; [done|intros (?&?&?); done]|].
  destruct (isDoor _ _ _); [split; [done|intros (?&?&?&?); done]|].
  destruct (distance_lt _ _); [split; [done|intros (?&?&?&?&?&?); done]|].
  destruct (Z.eqb_spec newX (x (mob h))) as [Ex|Ex];
    destruct (Z.eqb_spec newY (y (mob h))) as [Ey|Ey];
    destruct (Z.eqb_spec (plateauLevel h) (getPlateauLevel (map h) newX newY)) as [Ep|Ep];
    simpl; (split; [try done; intros _; split_and!; try done; intros [? ?]; done
                   |try done; intros (_&_&_&?&Hne&_); try done; destruct Hne; done]).
Qed.

(** handleRoaming hands over nothing but the candidate. *)
Lemma handleRoaming_target (h : Handler) (rx ry nx ny : Z) :
  handleRoaming h rx ry = Some (nx, ny) →
  nx = spawnX (mob h) + rx ∧ ny = spawnY (mob h) + ry.
Proof.
  unfold handleRoaming. intros Hr.
  repeat match type of Hr with
         | (if ?b then _ else _) = _ => destruct b; [discriminate|]
         end.
  by inversion Hr.
Qed.

(** Whatever the spec accepts, the code rejects. *)
Lemma specAccepts_rejected (h : Handler) (rx ry : Z) :
  specAccepts h (spawnX (mob h) + rx) (spawnY (mob h) + ry) = true →
  handleRoaming h rx ry = None.
Proof.
  unfold specAccepts, handleRoaming. intros Hs.
  repeat (apply andb_prop in Hs as [Hs ?]).
  destruct (dead (mob h)); [done|]. cbv zeta.
  repeat match goal with
         | Hn : negb ?b = true |- context [if ?b then _ else _] =>
           apply negb_true_iff in Hn; rewrite Hn
         end.
  match goal with Hd : distance_lt _ _ = true |- _ => by rewrite Hd end.
Qed.

(** C1, the code at failing inputs.  With the draws (3, 0) the candidate
    (103, 100) is at distance 3 from the spawn point, inside the radius 5,
    on a free tile of the same plateau: the spec accepts it, handleRoaming
    returns without a move.  With the draws (4, 3) the candidate (104, 103)
    is at distance 5, on the boundary: the spec rejects it, handleRoaming
    moves the mob there. *)
Theorem handleRoaming_radius_check_inverted :
  let h := new openMap rat in
  inRoamRange h 3 ∧ inRoamRange h 0 ∧ inRoamRange h 4
  ∧ specAccepts h 103 100 = true
  ∧ handleRoaming h 3 0 = None
  ∧ specAccepts h 104 103 = false
  ∧ handleRoaming h 4 3 = Some (104, 103).
Proof. cbv zeta. unfold inRoamRange. simpl. split_and!; (lia || reflexivity). Qed.

End MobHandlerFacts.

(** ** Player: experience, hits, notifications, cheat score *)

Module PlayerFacts.
Import Player.

Lemma emitted_app (p p' : Player) (evs : list Event) :
  log p' = log p ++ evs → emitted p p' = evs.
Proof. intros E. unfold emitted. by rewrite E, drop_app_length. Qed.

Lemma setLog_log (p : Player) : setLog (log p) p = p.
Proof. by destruct p. Qed.

Lemma countEvents_app (f : Event → bool) (l k : list Event) :
  countEvents f (l ++ k) = (countEvents f l + countEvents f k)%nat.
Proof. unfold countEvents. by rewrite List.filter_app, length_app. Qed.

Section Facts.
Context `{!Formulas, !Config}.

Lemma save_spec (p : Player) : save p = setLog (log p ++ saveEvents p) p.
Proof.
  unfold save, saveEvents. destruct (_ || _); [|done].
  by rewrite app_nil_r, setLog_log.
Qed.

Lemma sync_spec (p : Player) : sync p = setLog (log p ++ syncEvents p) p.
Proof.
  unfold sync. rewrite save_spec. unfold syncEvents, sendToRegions, emit.
  cbn [log setLog]. by rewrite <- (assoc_L (++)).
Qed.

(** healHitPoints(amount): the vital is raised, then sync and the Heal
    packet follow. *)
Lemma healHitPoints_spec (amount : Z) (p : Player) :
  let q := setVitals (increment amount (hitPoints p)) (mana p) p in
  healHitPoints amount p
  = setLog (log p ++ syncEvents q
              ++ [PushRegions (region p) (HealPacket (instance p) "health" amount) ""]) q.
Proof.
  intros q. unfold healHitPoints. fold q. rewrite sync_spec.
  unfold sendToRegions, emit. cbn [log setLog]. by rewrite <- (assoc_L (++)).
Qed.

Lemma levelUp_spec (p : Player) :
  levelUp p = setLog (log p ++ levelUpEvents p) (levelUpVitals p).
Proof.
  unfold levelUp. rewrite healHitPoints_spec.
  unfold updateRegion, popup, send, emit, levelUpEvents, levelUpPopup, levelUpVitals.
  cbn [log setLog String.eqb]. by rewrite <- !(assoc_L (++)).
Qed.

Lemma addExperience_spec (exp : Z) (p : Player) :
  addExperience exp p
  = setLog (log p ++ addExperienceEvents exp p) (addExperienceState exp p).
Proof.
  unfold addExperience, addExperienceEvents, addExperienceState.
  cbv zeta. rewrite sync_spec.
  destruct (negb _).
  - rewrite levelUp_spec. unfold send, sendToRegions, emit.
    cbn [log setLog]. by rewrite <- !(assoc_L (++)).
  - unfold send, sendToRegions, emit.
    cbn [log setLog]. by rewrite <- !(assoc_L (++)).
Qed.

Lemma addExperience_emitted (exp : Z) (p : Player) :
  emitted p (addExperience exp p) = addExperienceEvents exp p.
Proof. apply emitted_app. by rewrite addExperience_spec. Qed.

Lemma countEvents_saveEvents (f : Event → bool) (p : Player) :
  f Save = false → countEvents f (saveEvents p) = 0%nat.
Proof.
  intros Hf. unfold saveEvents, countEvents.
  destruct (_ || _); simpl; [done|]. by rewrite Hf.
Qed.

Lemma countEvents_syncEvents (f : Event → bool) (p : Player) :
  f Save = false →
  (∀ r d i, f (PushRegions r (SyncPacket d) i) = false) →
  countEvents f (syncEvents p) = 0%nat.
Proof.
  intros Hf Hs. unfold syncEvents.
  change (?e :: ?l) with ([e] ++ l). rewrite countEvents_app, countEvents_saveEvents by done.
  unfold countEvents. simpl. by rewrite Hs.
Qed.

(** C5.  addExperience adds [exp] to the experience and recomputes level
    and thresholds by the formulas.  When the level changed, the maximum
    of the hit points is the one of the new level, the hit points are at
    that maximum, one region resend and one popup (the level-up popup) are
    among the calls made; when the level did not change, the hit points and
    their maximum are as before and no region resend, popup or heal is
    among the calls made.  The hit points are assumed non-negative, as the
    data model keeps them. *)
Theorem addExperience_level_transition (exp : Z) (p : Player) :
  0 <= points (hitPoints p) →
  let p' := addExperience exp p in
  let evs := emitted p p' in
  experience p' = experience p + exp
  ∧ level p' = expToLevel (experience p')
  ∧ nextExperience p' = Some (nextExp (experience p'))
  ∧ prevExperience p' = Some (prevExp (experience p'))
  ∧ (level p' ≠ level p →
       maxPoints (hitPoints p') = getMaxHitPoints (level p')
       ∧ points (hitPoints p') = maxPoints (hitPoints p')
       ∧ countEvents isSendRegion evs = 1%nat
       ∧ countEvents isPopup evs = 1%nat
       ∧ levelUpPopup (level p') ∈ evs)
  ∧ (level p' = level p →
       hitPoints p' = hitPoints p
       ∧ countEvents isSendRegion evs = 0%nat
       ∧ countEvents isPopup evs = 0%nat
       ∧ countEvents isHeal evs = 0%nat).
Proof.
  intros Hhp p' evs.
  assert (evs = addExperienceEvents exp p) as -> by apply addExperience_emitted.
  subst p'. rewrite addExperience_spec.
  unfold addExperienceEvents, addExperienceState. cbv zeta.
  set (e := experience p + exp).
  change (level (setProgress e (expToLevel e) _ _ p)) with (expToLevel e).
  destruct (Z.eqb_spec (level p) (expToLevel e)) as [Eq|Ne]; cbn [negb].
  - split_and!; try done.
    intros _. split_and!; [done|..];
      rewrite !countEvents_app, countEvents_syncEvents by done; done.
  - split_and!; try done.
    intros _. unfold levelUpVitals, levelUpEvents. cbv zeta.
    split_and!.
    + done.
    + cbn. lia.
    + rewrite !countEvents_app, !countEvents_syncEvents by done. done.
    + rewrite !countEvents_app, !countEvents_syncEvents by done. done.
    + rewrite !elem_of_app. left. right. set_solver.
Qed.

(** C8.  hasSpecialAttack is constantly false, so getHit always returns
    the plain damage hit carrying the formula damage, whatever the roll and
    whatever the weapon's ability and ability level. *)
Theorem getHit_plain_damage {Character : Type} `{!Combat Character}
    (target : Character) (roll : Z) (p : Player) :
  hasSpecialAttack p = false
  ∧ getHit target roll p = Some (mkHit HitDamage (getDamage p target)).
Proof.
  split; [done|]. unfold getHit, hasSpecialAttack. cbn [negb].
  by rewrite orb_true_r.
Qed.

(** C9.  For a non-empty message: when fewer than 250 ms passed since the
    last notification that was sent, notify changes nothing (no packet,
    same timestamp); otherwise it pushes exactly one text notification to
    the player and stores the second clock reading as the timestamp. *)
Theorem notify_rate_limit (message : string) (colour : option string)
    (now1 now2 : Z) (p : Player) :
  message ≠ "" →
  let p' := notify message colour now1 now2 p in
  (∀ t, lastNotify p = Some t → now1 - t < 250 →
     p' = p ∧ emitted p p' = [] ∧ lastNotify p' = lastNotify p)
  ∧ ((lastNotify p = None ∨ ∃ t, lastNotify p = Some t ∧ 250 <= now1 - t) →
       emitted p p' = [PushPlayer (NotificationText (parseMessage message) colour)]
       ∧ countEvents isTextNotification (emitted p p') = 1%nat
       ∧ lastNotify p' = Some now2).
Proof.
  intros Hm p'. subst p'. unfold notify.
  apply String.eqb_neq in Hm. rewrite Hm. unfold notifiedRecently.
  split.
  - intros t Ht Hlt. rewrite Ht.
    destruct (Z.ltb_spec (now1 - t) 250) as [_|Hge]; [|lia].
    split_and!; [done| |done]. unfold emitted. by rewrite drop_all.
  - intros Hold.
    assert (match lastNotify p with Some t => now1 - t <? 250 | None => false end = false)
      as ->.
    { destruct Hold as [->|(t & -> & Hge)]; [done|]. by apply Z.ltb_ge. }
    assert (emitted p (setLastNotify now2
                         (send (NotificationText (parseMessage message) colour) p))
            = [PushPlayer (NotificationText (parseMessage message) colour)]) as ->.
    { by apply emitted_app. }
    done.
Qed.

(** X2.  Two notifications that are both sent, the second one called after the
    first on a clock that does not run backwards, are at least 250 ms apart. *)
Lemma notify_min_gap (m1 m2 : string) (c1 c2 : option string)
    (a1 a2 b1 b2 : Z) (p : Player) :
  let p1 := notify m1 c1 a1 a2 p in
  let p2 := notify m2 c2 b1 b2 p1 in
  a1 <= a2 →
  emitted p p1 ≠ [] → emitted p1 p2 ≠ [] →
  250 <= b1 - a1.
Proof.
  intros p1 p2 Hclock H1 H2. subst p1 p2. unfold notify in *.
  destruct (String.eqb m1 "");
    [by destruct H1; unfold emitted; rewrite drop_all|].
  destruct (notifiedRecently a1 p);
    [by destruct H1; unfold emitted; rewrite drop_all|].
  destruct (String.eqb m2 "");
    [by destruct H2; unfold emitted; rewrite drop_all|].
  unfold notifiedRecently in H2 |- *. cbn [lastNotify setLastNotify] in H2.
  destruct (Z.ltb_spec (b1 - a2) 250) as [Hlt|Hge];
    [by destruct H2; unfold emitted; rewrite drop_all|].
  lia.
Qed.

(** C10.  In combat, incrementCheatScore changes nothing and the callback
    is not called.  Outside combat the cheat score grows by [amount], the
    callback registered with onCheatScore is called (once; nothing is called
    when none is registered), and the other fields of the player are as
    before. *)
Theorem incrementCheatScore_frame (amount : Z) (p : Player) :
  let p' := incrementCheatScore amount p in
  (combatStarted p = true →
     p' = p ∧ cheatScore p' = cheatScore p ∧ emitted p p' = [])
  ∧ (combatStarted p = false →
       cheatScore p' = cheatScore p + amount
       ∧ emitted p p' = (if cheatScoreCallback p then [CheatScoreCallback] else [])
       ∧ sameButCheatScore p p').
Proof.
  intros p'. subst p'. unfold incrementCheatScore. split; intros ->.
  - split_and!; [done|done|]. unfold emitted. by rewrite drop_all.
  - cbn [cheatScoreCallback setCheatScore].
    destruct (cheatScoreCallback p) eqn:Ecb.
    + split_and!; [done| |done]. by apply emitted_app.
    + split_and!; [done| |].
      * apply emitted_app. by rewrite app_nil_r.
      * unfold sameButCheatScore. by destruct p.
Qed.

End Facts.

End PlayerFacts.

(** ** Skills: synchronisation and combat level *)

Module SkillsFacts.
Import Skills.

(** The for loop of getCombatLevel adds up the summands of the formula. *)
Lemma combat_loop_sum (l : list Skill) (start : Z) :
  fold_left (fun lvl sk => lvl + (level sk - 1)) l start
  = start + foldr Z.add 0 ((fun sk => level sk - 1) <$> l).
Proof.
  revert start. induction l as [|sk l IH]; intros start; [simpl; lia|].
  rewrite fmap_cons. cbn [fold_left foldr]. rewrite IH. lia.
Qed.

Lemma sum_all_ones (l : list Skill) :
  Forall (fun sk => level sk = 1) l →
  foldr Z.add 0 ((fun sk => level sk - 1) <$> l) = 0.
Proof.
  induction 1 as [|sk l Hsk _ IH]; [done|].
  rewrite fmap_cons. cbn [foldr]. rewrite IH. lia.
Qed.

(** C7.  getCombatLevel is 1 plus the sum of (level - 1) over the skills
    flagged for combat, and it is exactly 1 when all of those are at level
    1, however many there are. *)
Theorem getCombatLevel_formula (s : Skills) :
  getCombatLevel s = combatLevelFormula s
  ∧ (Forall (fun sk => level sk = 1) (getCombatSkills s) → getCombatLevel s = 1).
Proof.
  unfold getCombatLevel, combatLevelFormula. rewrite combat_loop_sum.
  split; [done|]. intros Hall. rewrite sum_all_ones by done. lia.
Qed.

(** Only the flagged skills are summed. *)
Lemma getCombatSkills_flagged (s : Skills) (sk : Skill) :
  sk ∈ getCombatSkills s ↔ (∃ t, (t, sk) ∈ skills s) ∧ combat sk = true.
Proof.
  unfold getCombatSkills. rewrite list_elem_of_filter, list_elem_of_fmap.
  split.
  - intros [Hc ([t sk'] & -> & Hin)]. split; [by exists t|done].
  - intros [[t Hin] Hc]. split; [done|]. by exists (t, sk).
Qed.

Section Facts.
Context `{!Player.Formulas, !Player.Config}.

(** C6.  Before load has completed, sync returns at once: the aggregate,
    its player (hit points, mana, level) and the log of pushed packets are
    what they were. *)
Theorem sync_before_load (s : Skills) :
  loaded s = false →
  sync s = Some s
  ∧ ∀ s', sync s = Some s' →
      Player.emitted (player s) (player s') = []
      ∧ Player.hitPoints (player s') = Player.hitPoints (player s)
      ∧ Player.mana (player s') = Player.mana (player s)
      ∧ Player.level (player s') = Player.level (player s).
Proof.
  intros Hl. unfold sync. rewrite Hl. cbn [negb]. split; [done|].
  intros s' [= <-]. split_and!; try done.
  unfold Player.emitted. by rewrite drop_all.
Qed.

(** Once loaded, sync does write the vitals and the level and pushes the
    two packets. *)
Lemma sync_after_load (s : Skills) (health magic : Skill) :
  loaded s = true →
  get s Health = Some health →
  get s Magic = Some magic →
  ∃ s', sync s = Some s'
    ∧ Player.maxPoints (Player.hitPoints (player s')) = Player.getMaxHitPoints (level health)
    ∧ Player.maxPoints (Player.mana (player s')) = Player.getMaxMana (level magic)
    ∧ Player.level (player s') = getCombatLevel s
    ∧ Player.emitted (player s) (player s')
      = [Player.PushPlayer
           (Player.ExperienceSync (Player.instance (player s)) (getCombatLevel s));
         Player.PushPlayer
           (Player.PointsPacket (Player.instance (player s))
              (Player.points (Player.hitPoints (player s)))
              (Player.getMaxHitPoints (level health))
              (Player.points (Player.mana (player s)))
              (Player.getMaxMana (level magic)))].
Proof.
  intros Hl Hh Hm. unfold sync. rewrite Hl, Hh, Hm. cbn [negb mbind option_bind].
  eexists. split; [reflexivity|]. split_and!; try done.
  apply PlayerFacts.emitted_app. cbn. by rewrite <- (assoc_L (++)).
Qed.

End Facts.

End SkillsFacts.

(** ** TeamWar: the operations one by one *)

Module TeamWarOps.
Import TeamWar.

Section Facts.
Context {Player : Type} `{Countable Player}.
Implicit Types (s : State Player) (p q : Player) (l : list Player).

(** indexOf finds the first position of the player, or answers -1. *)
Lemma indexOf_from_spec (i : Z) l p :
  ((p ∉ l) ∧ indexOf_from i l p = -1)
  ∨ (∃ n : nat, indexOf_from i l p = i + Z.of_nat n
                ∧ l !! n = Some p
                ∧ (p ∉ take n l)).
Proof.
  revert i. induction l as [|q l IH]; intros i; simpl.
  - left. split; [apply not_elem_of_nil|done].
  - destruct (decide (q = p)) as [->|Hne].
    + right. exists 0%nat. split_and!; [lia|done|apply not_elem_of_nil].
    + destruct (IH (i + 1)) as [[Hnin E]|(n & E & Hn & Hpre)].
      * left. split; [|done]. by apply not_elem_of_cons.
      * right. exists (S n). split_and!; [lia|done|].
        simpl. by apply not_elem_of_cons.
Qed.

(** Taking a player out of a list without repetitions at its position
    leaves exactly the other players. *)
Lemma delete_at_position l p (n : nat) :
  NoDup l → l !! n = Some p →
  ∀ q, q ∈ delete n l ↔ q ∈ l ∧ q ≠ p.
Proof.
  intros Hnd Hn q. rewrite delete_take_drop.
  rewrite <- (take_drop_middle l n p Hn) in Hnd at 1.
  apply NoDup_app in Hnd as (_ & Hdisj & Hnd2).
  apply NoDup_cons in Hnd2 as [Hp2 _].
  rewrite <- (take_drop_middle l n p Hn) at 3.
  rewrite !elem_of_app, elem_of_cons. split.
  - intros [Hq|Hq].
    + split; [by left|]. intros ->. apply (Hdisj p Hq). by left.
    + split; [by right; right|]. by intros ->.
  - intros [[Hq|[->|Hq]] Hne]; [by left|done|by right].
Qed.

(** X3.  buildTeams gives the front ceil(n/2) players of the lobby to the
    red team when the draw is 1 and to the blue team otherwise, and the
    other floor(n/2) players to the other team: the two rosters together
    have the size of the lobby and differ in size by one player at most. *)
Theorem buildTeams_split_sizes (random : Z) s :
  let s' := buildTeams random s in
  let n := length (lobby s) in
  let front := if random =? 1 then redTeam s' else blueTeam s' in
  let back := if random =? 1 then blueTeam s' else redTeam s' in
  front = take (ceil_half n) (lobby s)
  ∧ back = drop (ceil_half n) (lobby s)
  ∧ (length front + length back = n)%nat
  ∧ (length back <= length front <= length back + 1)%nat.
Proof.
  intros s' n front back.
  assert (front = take (ceil_half n) (lobby s) ∧ back = drop (ceil_half n) (lobby s))
    as [-> ->].
  { subst front back s' n. unfold buildTeams, splice0.
    by destruct (random =? 1). }
  rewrite length_take, length_drop. fold n.
  assert (ceil_half n <= n)%nat as Hle.
  { unfold ceil_half. destruct n as [|n]; [done|].
    apply Nat.Div0.div_le_upper_bound. lia. }
  assert (n <= 2 * ceil_half n <= n + 1)%nat as Hhalf.
  { unfold ceil_half.
    pose proof (Nat.div_mod_eq (n + 1) 2) as Hdm.
    pose proof (Nat.mod_upper_bound (n + 1) 2). lia. }
  split_and!; [done|done|lia|lia|lia].
Qed.

Lemma add_present p s : p ∈ lobby s → add p s = s.
Proof.
  intros Hin. unfold add.
  by rewrite (proj2 (TeamWarFacts.includes_true _ _) Hin).
Qed.

Lemma add_absent p s :
  p ∉ lobby s →
  lobby (add p s) = lobby s ++ [p]
  ∧ redTeam (add p s) = redTeam s
  ∧ blueTeam (add p s) = blueTeam s
  ∧ minigame (add p s) = <[p := getTeam (add p s) p]> (minigame s).
Proof.
  intros Hnin. unfold add.
  by rewrite (proj2 (TeamWarFacts.includes_false _ _) Hnin).
Qed.

(** X4.  add is idempotent and leaves the rosters alone.  A player who was
    not in the lobby is appended to it, and the snapshot stored on the
    player names the team getTeam finds: the old roster for a player who is
    still on one, the lobby otherwise. *)
Theorem add_joins_once p s :
  let s' := add p s in
  p ∈ lobby s'
  ∧ add p s' = s'
  ∧ redTeam s' = redTeam s ∧ blueTeam s' = blueTeam s
  ∧ ((p ∉ lobby s) →
       lobby s' = lobby s ++ [p]
       ∧ minigame s' !! p = Some (getTeam s' p)
       ∧ getTeam s' p
         = Some (if includes (redTeam s) p then Red
                 else if includes (blueTeam s) p then Blue else Lobby)).
Proof.
  intros s'. subst s'.
  destruct (decide (p ∈ lobby s)) as [Hin|Hnin].
  - rewrite (add_present p s Hin). split_and!; try done.
    by apply add_present.
  - destruct (add_absent p s Hnin) as (El & Er & Eb & Em).
    assert (p ∈ lobby (add p s)) as Hin.
    { rewrite El. apply elem_of_app. right. by left. }
    split_and!; try done.
    + by apply add_present.
    + intros _. split_and!; [done|by rewrite Em, lookup_insert_eq|].
      unfold getTeam. rewrite Er, Eb.
      destruct (includes (redTeam s) p); [done|].
      destruct (includes (blueTeam s) p); [done|].
      by rewrite (proj2 (TeamWarFacts.includes_true _ _) Hin).
Qed.

(** X5.  remove takes the player out of a lobby without repetitions and
    keeps everyone else; it never touches the rosters, so a player who
    leaves stays on the team they were dealt to.  Removing a player who is
    not in the lobby changes nothing. *)
Theorem remove_leaves_lobby p s :
  NoDup (lobby s) →
  let s' := remove p s in
  (p ∉ lobby s')
  ∧ (∀ q, q ≠ p → q ∈ lobby s' ↔ q ∈ lobby s)
  ∧ NoDup (lobby s')
  ∧ redTeam s' = redTeam s ∧ blueTeam s' = blueTeam s
  ∧ ((p ∉ lobby s) → s' = s).
Proof.
  intros Hnd s'. subst s'. unfold remove, indexOf.
  destruct (indexOf_from_spec 0 (lobby s) p) as [[Hnin ->]|(n & -> & Hn & _)].
  - simpl. split_and!; try done.
  - destruct (Z.ltb_spec (0 + Z.of_nat n) 0) as [?|_]; [lia|].
    replace (Z.to_nat (0 + Z.of_nat n)) with n by lia. simpl.
    pose proof (delete_at_position (lobby s) p n Hnd Hn) as Hdel.
    split_and!; try done.
    + intros Hp. by apply Hdel in Hp as [_ ?].
    + intros q Hq. rewrite Hdel. split; [by intros [? _]|by intros ?].
    + eapply sublist_NoDup; [exact Hnd|apply sublist_delete].
    + intros Hnin. destruct Hnin. by eapply list_elem_of_lookup_2.
Qed.

(** X6.  A player who joins and leaves again: the lobby is what it was. *)
Theorem remove_add_restores_lobby p s :
  p ∉ lobby s →
  lobby (remove p (add p s)) = lobby s.
Proof.
  intros Hnin. unfold add.
  rewrite (proj2 (TeamWarFacts.includes_false _ _) Hnin).
  unfold remove, indexOf. simpl.
  destruct (indexOf_from_spec 0 (lobby s ++ [p]) p) as [[Habs _]|(n & -> & Hn & Hpre)].
  - destruct Habs. apply elem_of_app. right. by left.
  - destruct (Z.ltb_spec (0 + Z.of_nat n) 0) as [?|_]; [lia|].
    replace (Z.to_nat (0 + Z.of_nat n)) with n by lia. simpl.
    assert (n = length (lobby s)) as ->.
    { destruct (decide (n < length (lobby s))%nat) as [Hlt|Hge].
      - rewrite lookup_app_l in Hn by done.
        destruct Hnin. by eapply list_elem_of_lookup_2.
      - apply lookup_lt_Some in Hn. rewrite length_app in Hn. simpl in Hn. lia. }
    rewrite delete_take_drop, take_app_length.
    rewrite drop_app_ge by lia.
    replace (S (length (lobby s)) - length (lobby s))%nat with 1%nat by lia.
    simpl. by rewrite app_nil_r.
Qed.

(** X7.  getTeam answers by membership, the red roster first, then the
    blue one, the lobby last, and null for a player in none of the three.
    As buildTeams leaves the lobby filled, every lobby player is reported
    on a team afterwards, never as waiting in the lobby. *)
Theorem getTeam_by_membership p s :
  (getTeam s p = Some Red ↔ p ∈ redTeam s)
  ∧ (getTeam s p = Some Blue ↔ (p ∉ redTeam s) ∧ p ∈ blueTeam s)
  ∧ (getTeam s p = Some Lobby ↔ (p ∉ redTeam s) ∧ (p ∉ blueTeam s) ∧ p ∈ lobby s)
  ∧ (getTeam s p = None ↔ (p ∉ redTeam s) ∧ (p ∉ blueTeam s) ∧ (p ∉ lobby s))
  ∧ ∀ random, p ∈ lobby s →
      getTeam (buildTeams random s) p = Some Red
      ∨ getTeam (buildTeams random s) p = Some Blue.
Proof.
  assert (∀ t, (getTeam t p = Some Red ↔ p ∈ redTeam t)
    ∧ (getTeam t p = Some Blue ↔ (p ∉ redTeam t) ∧ p ∈ blueTeam t)
    ∧ (getTeam t p = Some Lobby ↔ (p ∉ redTeam t) ∧ (p ∉ blueTeam t) ∧ p ∈ lobby t)
    ∧ (getTeam t p = None ↔ (p ∉ redTeam t) ∧ (p ∉ blueTeam t) ∧ (p ∉ lobby t)))
    as Hcases.
  { intros t. unfold getTeam, includes.
    destruct (decide (p ∈ redTeam t)) as [Hr|Hr];
      [rewrite (bool_decide_eq_true_2 _ Hr)|rewrite (bool_decide_eq_false_2 _ Hr)].
    { split_and!; (split; [try done|intros; destruct_and?; try done]). }
    destruct (decide (p ∈ blueTeam t)) as [Hb|Hb];
      [rewrite (bool_decide_eq_true_2 _ Hb)|rewrite (bool_decide_eq_false_2 _ Hb)].
    { split_and!; (split; [try done|intros; destruct_and?; try done]). }
    destruct (decide (p ∈ lobby t)) as [Hl|Hl];
      [rewrite (bool_decide_eq_true_2 _ Hl)|rewrite (bool_decide_eq_false_2 _ Hl)].
    { split_and!; (split; [try done|intros; destruct_and?; try done]). }
    split_and!; (split; [try done|intros; destruct_and?; try done]). }
  destruct (Hcases s) as (H1 & H2 & H3 & H4).
  split_and!; try done.
  intros random Hin.
  destruct (Hcases (buildTeams random s)) as (Hred & Hblue & _ & _).
  assert (p ∈ redTeam (buildTeams random s) ++ blueTeam (buildTeams random s)) as Hp
    by by rewrite TeamWarFacts.buildTeams_rosters.
  destruct (decide (p ∈ redTeam (buildTeams random s))) as [Hr|Hr].
  - left. by apply Hred.
  - right. apply Hblue. split; [done|].
    apply elem_of_app in Hp as [?|?]; done.
Qed.

(** X8.  Before the match has started, synchronize sends one countdown
    packet to every player of the lobby, in the order of the lobby, each
    with the current countdown; once the match has started it sends
    nothing.  It changes nothing else. *)
Theorem synchronize_packets s :
  pushed (synchronize s)
  = pushed s ++ (if started s then [] else (fun p => (p, countdown s)) <$> lobby s)
  ∧ lobby (synchronize s) = lobby s
  ∧ countdown (synchronize s) = countdown s
  ∧ started (synchronize s) = started s
  ∧ lastSync (synchronize s) = lastSync s.
Proof.
  unfold synchronize. destruct (started s) eqn:Es.
  { by rewrite app_nil_r. }
  assert (∀ l t,
    let t' := fold_left (fun acc p => sendCountdown p acc) l t in
    pushed t' = pushed t ++ ((fun p => (p, countdown t)) <$> l)
    ∧ lobby t' = lobby t ∧ countdown t' = countdown t
    ∧ started t' = started t ∧ lastSync t' = lastSync t) as Hfold.
  { induction l as [|p l IH]; intros t; simpl.
    - by rewrite app_nil_r.
    - destruct (IH (sendCountdown p t)) as (-> & -> & -> & -> & ->).
      simpl. by rewrite <- (assoc_L (++)). }
  destruct (Hfold (lobby s) s) as (-> & -> & -> & -> & ->). by rewrite Es.
Qed.

(** The countdown and the started flag change by a write to the countdown
    at the earliest. *)
Lemma step_keeps_countdown (op : Op Player) s :
  writesCountdown op = false →
  0 < countdown s → started s = false → pushed s = [] →
  countdown (step s op) = countdown s
  ∧ started (step s op) = false
  ∧ pushed (step s op) = [].
Proof.
  intros Hop Hc Hs Hp. destruct op as [p|p|now random|random|c]; simpl.
  - unfold add. by destruct (includes _ _).
  - unfold remove. by destruct (_ <? 0).
  - unfold tick. destruct (Z.gtb_spec (countdown s) 0) as [_|?]; [|lia].
    by rewrite orb_true_r.
  - unfold buildTeams, splice0. by destruct (random =? 1).
  - discriminate.
Qed.

(** X9.  Nothing in the class lets the countdown run: as long as nobody
    writes the countdown field from outside, it stays at 120 whatever is
    added, removed, built or ticked, the interval callback never starts
    the match, and no countdown packet is ever sent. *)
Theorem countdown_never_elapses (ops : list (Op Player)) (now : Z) :
  forallb (fun op => negb (writesCountdown op)) ops = true →
  let s := run ops (new now) in
  countdown s = 120 ∧ started s = false ∧ pushed s = []
  ∧ ∀ now' random, tick now' random s = s.
Proof.
  intros Hops s.
  assert (countdown s = 120 ∧ started s = false ∧ pushed s = []) as (Hc & Hs & Hp).
  { subst s. unfold run.
    assert (countdown (new (Player:=Player) now) = 120
            ∧ started (new (Player:=Player) now) = false
            ∧ pushed (new (Player:=Player) now) = []) as Hinit by done.
    revert Hinit. generalize (new (Player:=Player) now).
    induction ops as [|op ops IH]; intros t Ht; [done|].
    simpl in Hops. apply andb_prop in Hops as [Hop Hops].
    apply negb_true_iff in Hop. destruct Ht as (Hc & Hs & Hp).
    simpl. apply IH; [done|].
    destruct (step_keeps_countdown op t Hop) as (-> & -> & ->); try done. lia. }
  split_and!; try done.
  intros now' random. unfold tick.
  destruct (Z.gtb_spec (countdown s) 0) as [_|?]; [|lia].
  by rewrite orb_true_r.
Qed.

End Facts.

(** X10.  inLobby asks for y > 10 and y < 0 at once: it answers false for
    every position. *)
Theorem inLobby_never (x y : Z) : inLobby x y = false.
Proof.
  unfold inLobby.
  destruct (Z.gtb_spec y 10), (Z.ltb_spec y 0); try lia;
    by rewrite ?andb_false_r.
Qed.

(** X11.  With the draws of getRandom() between 0 and 4, the red team
    spawns in the square from (133, 471) to (137, 475) and the blue team
    in the square from (163, 499) to (167, 503); the two squares do not
    meet. *)
Theorem team_spawns_apart (rx ry bx cy : Z) :
  inRandomRange None rx → inRandomRange None ry →
  inRandomRange None bx → inRandomRange None cy →
  let red := getRedTeamSpawn rx ry in
  let blue := getBlueTeamSpawn bx cy in
  133 <= red.1 <= 137 ∧ 471 <= red.2 <= 475
  ∧ 163 <= blue.1 <= 167 ∧ 499 <= blue.2 <= 503
  ∧ red.1 < blue.1 ∧ red.2 < blue.2.
Proof. unfold inRandomRange, getRandomBound. simpl. lia. Qed.

(** The radius 0 is falsy: getRandom(0) draws up to 4, like getRandom(). *)
Lemma getRandomBound_zero : getRandomBound (Some 0) = getRandomBound None.
Proof. done. Qed.

End TeamWarOps.

(** ** Doors: gated status, tiles and the door table *)

Module DoorsLookups.
Import Doors.

(** X12.  A door gated by a quest, an achievement or a level always has a
    status, open or closed.  It is open exactly when the quest exists and
    reports the door unlocked, when the achievement exists and is finished,
    or when the door names a level and the player has reached it; a missing
    quest, achievement or level means closed. *)
Theorem getStatus_gated (d : Doors) (door : Door) :
  status door = None →
  skipDatabase (env d) = false →
  (requirement door = "quest" →
     getStatus d door
     = Some (match getQuest (env d) (questId door) with
             | Some quest => if hasDoorUnlocked quest door then Open else Closed
             | None => Closed
             end))
  ∧ (requirement door = "achievement" →
       getStatus d door
       = Some (match getAchievement (env d) (achievementId door) with
               | Some achievement => if isFinished achievement then Open else Closed
               | None => Closed
               end))
  ∧ (requirement door = "level" →
       (getStatus d door = Some Open
        ↔ ∃ l, level door = Some l ∧ l <= playerLevel (env d))
       ∧ (getStatus d door = Some Closed
          ↔ ∀ l, level door = Some l → playerLevel (env d) < l)).
Proof.
  intros Hst Hskip. unfold getStatus. rewrite Hst, Hskip.
  split_and!; intros ->; simpl.
  - destruct (getQuest _ _) as [quest|]; [|done]. by destruct (hasDoorUnlocked _ _).
  - destruct (getAchievement _ _) as [a|]; [|done]. by destruct (isFinished _).
  - destruct (level door) as [l|].
    + destruct (Z.geb_spec (playerLevel (env d)) l) as [Hge|Hlt].
      * split; split; try done.
        -- intros _. exists l. split; [done|lia].
        -- intros Hall. specialize (Hall l eq_refl). lia.
      * split; split; try done.
        -- intros (l' & [= <-] & Hle). lia.
        -- intros _ l' [= <-]. lia.
    + split; split; try done.
      intros (l & Hl & _). discriminate.
Qed.

(** The pushes of getTiles keep the three lists in step. *)
Lemma pushTile_fold (entries : list (Z * IDs)) (tiles : DoorTiles) :
  let tiles' := fold_left pushTile entries tiles in
  indexes tiles' = indexes tiles ++ entries.*1
  ∧ tilesData tiles' = tilesData tiles ++ (data <$> entries.*2)
  ∧ collisions tiles' = collisions tiles ++ (isColliding <$> entries.*2).
Proof.
  revert tiles. induction entries as [|entry entries IH]; intros tiles; simpl.
  - by rewrite !app_nil_r.
  - destruct (IH (pushTile tiles entry)) as (-> & -> & ->). simpl.
    by rewrite <- !(assoc_L (++)).
Qed.

(** The three lists of getTiles, entry by entry. *)
Lemma getTiles_unzip (d : Doors) (door : Door) :
  let entries := doorState door (getStatus d door) in
  indexes (getTiles d door) = entries.*1
  ∧ tilesData (getTiles d door) = (data <$> entries.*2)
  ∧ collisions (getTiles d door) = (isColliding <$> entries.*2).
Proof.
  intros entries. unfold getTiles. fold entries.
  apply (pushTile_fold entries emptyTiles).
Qed.

(** X13.  getTiles lays the tile set selected by the door's status out in
    three lists of the same length, entry by entry and in order: the keys,
    the render data and the collision flags.  A door whose status is
    undefined has no tiles. *)
Theorem getTiles_parallel (d : Doors) (door : Door) :
  let entries := doorState door (getStatus d door) in
  let tiles := getTiles d door in
  indexes tiles = entries.*1
  ∧ tilesData tiles = (data <$> entries.*2)
  ∧ collisions tiles = (isColliding <$> entries.*2)
  ∧ length (indexes tiles) = length entries
  ∧ length (tilesData tiles) = length entries
  ∧ length (collisions tiles) = length entries
  ∧ (getStatus d door = None → tiles = emptyTiles).
Proof.
  intros entries tiles. subst tiles.
  destruct (getTiles_unzip d door) as (Ei & Ed & Ec).
  fold entries in Ei, Ed, Ec. rewrite Ei, Ed, Ec.
  rewrite !length_fmap. split_and!; try done.
  intros Hnone. unfold getTiles. by rewrite Hnone.
Qed.

(** indexOf finds the first position of a number, or answers -1. *)
Lemma indexOf_from_first (i : Z) (l : list Z) (v : Z) :
  ((v ∉ l) ∧ indexOf_from i l v = -1)
  ∨ (∃ n : nat, indexOf_from i l v = i + Z.of_nat n
                ∧ l !! n = Some v
                ∧ (v ∉ take n l)).
Proof.
  revert i. induction l as [|w l IH]; intros i; simpl.
  - left. split; [apply not_elem_of_nil|done].
  - destruct (Z.eqb_spec w v) as [->|Hne].
    + right. exists 0%nat. split_and!; [lia|done|apply not_elem_of_nil].
    + destruct (IH (i + 1)) as [[Hnin E]|(n & E & Hn & Hpre)].
      * left. split; [|done]. by apply not_elem_of_cons.
      * right. exists (S n). split_and!; [lia|done|].
        simpl. by apply not_elem_of_cons.
Qed.

(** X14.  In the tiles getTiles returns for a door whose selected tile set
    has distinct keys, indexOf finds every key of the set, and the position
    it answers holds that key's collision flag and render data in the two
    other lists; for a number that is not a key indexOf answers -1. *)
Theorem getTiles_lookup (d : Doors) (door : Door) (tileIndex : Z) :
  let entries := doorState door (getStatus d door) in
  let tiles := getTiles d door in
  NoDup entries.*1 →
  (∀ ids, (tileIndex, ids) ∈ entries →
     ∃ n : nat,
       indexOf (indexes tiles) tileIndex = Z.of_nat n
       ∧ collisions tiles !! n = Some (isColliding ids)
       ∧ tilesData tiles !! n = Some (data ids))
  ∧ ((tileIndex ∉ entries.*1) → indexOf (indexes tiles) tileIndex = -1).
Proof.
  intros entries tiles Hnd. subst tiles.
  destruct (getTiles_unzip d door) as (Ei & Ed & Ec).
  fold entries in Ei, Ed, Ec. rewrite Ei, Ed, Ec. unfold indexOf.
  destruct (indexOf_from_first 0 entries.*1 tileIndex)
    as [[Hnin ->]|(n & -> & Hn & _)].
  - split; [|done]. intros ids Hin. destruct Hnin.
    apply list_elem_of_fmap. by exists (tileIndex, ids).
  - split.
    + intros ids Hin. exists n. split; [lia|].
      apply list_elem_of_lookup in Hin as [m Hm].
      assert (entries.*1 !! m = Some tileIndex) as Hm1
        by by rewrite list_lookup_fmap, Hm.
      assert (n = m) as -> by by eapply NoDup_lookup.
      by rewrite !list_lookup_fmap, Hm.
    + intros Hnin. destruct Hnin. by eapply list_elem_of_lookup_2.
Qed.

(** getAllTiles returns three empty lists whatever the door table
    holds, so hasCollision answers false at every coordinate. *)
Lemma getAllTiles_collects_nothing (d : Doors) :
  getAllTiles d = emptyTiles
  ∧ ∀ px py, hasCollision d px py = false.
Proof.
  assert (getAllTiles d = emptyTiles) as E.
  { unfold getAllTiles. generalize emptyTiles.
    induction (doors d) as [|door l IH]; intros acc; [done|]. apply IH. }
  split; [done|].
  intros px py. unfold hasCollision. by rewrite E.
Qed.

(** X15.  getDoor answers with the first door of the table standing at
    (x, y), and with undefined exactly when no door stands there; a door
    without coordinates is never found. *)
Theorem getDoor_first_match (d : Doors) (px py : Z) :
  (∀ door, getDoor d px py = Some door →
     ∃ before after,
       doors d = before ++ door :: after
       ∧ x door = Some px ∧ y door = Some py
       ∧ ∀ other, other ∈ before → ¬ (x other = Some px ∧ y other = Some py))
  ∧ (getDoor d px py = None
     ↔ ∀ door, door ∈ doors d → ¬ (x door = Some px ∧ y door = Some py)).
Proof.
  unfold getDoor. induction (doors d) as [|door0 l [IHs IHn]]; simpl.
  - split; [done|]. split; [|done]. intros _ door Hin.
    by apply not_elem_of_nil in Hin.
  - destruct (decide (x door0 = Some px)) as [Hx|Hx];
      [rewrite (bool_decide_eq_true_2 _ Hx)|rewrite (bool_decide_eq_false_2 _ Hx)];
      simpl.
    + destruct (decide (y door0 = Some py)) as [Hy|Hy];
        [rewrite (bool_decide_eq_true_2 _ Hy)|rewrite (bool_decide_eq_false_2 _ Hy)].
      * split.
        -- intros door [= <-]. exists [], l. split_and!; try done.
           intros other Hin. by apply not_elem_of_nil in Hin.
        -- split; [done|]. intros Hall. destruct (Hall door0); [by left|done].
      * split.
        -- intros door Hf. destruct (IHs door Hf) as (b & a & -> & ? & ? & Hb).
           exists (door0 :: b), a. split_and!; try done.
           intros other [->|Hin]%elem_of_cons; [by intros [_ ?]|by apply Hb].
        -- rewrite IHn. split.
           ++ intros Hall door [->|Hin]%elem_of_cons; [by intros [_ ?]|by apply Hall].
           ++ intros Hall door Hin. apply Hall. by right.
    + split.
      * intros door Hf. destruct (IHs door Hf) as (b & a & -> & ? & ? & Hb).
        exists (door0 :: b), a. split_and!; try done.
        intros other [->|Hin]%elem_of_cons; [by intros [? _]|by apply Hb].
      * rewrite IHn. split.
        -- intros Hall door [->|Hin]%elem_of_cons; [by intros [? _]|by apply Hall].
        -- intros Hall door Hin. apply Hall. by right.
Qed.

(** isDoor calls its callback once for every door of the table, not
    once in all, and one of the calls passes true exactly when getDoor
    finds a door at the coordinate. *)
Lemma isDoor_calls (d : Doors) (px py : Z) :
  length (isDoor d px py) = length (doors d)
  ∧ (true ∈ isDoor d px py ↔ is_Some (getDoor d px py)).
Proof.
  unfold isDoor, getDoor. split; [by rewrite length_fmap|].
  induction (doors d) as [|door0 l IH]; simpl.
  - split; [by intros ?%not_elem_of_nil|by intros [? ?]].
  - rewrite elem_of_cons.
    destruct (bool_decide (x door0 = Some px) && bool_decide (y door0 = Some py)).
    + split; [by eexists|by left].
    + rewrite <- IH. split; [by intros [?|?]|by right].
Qed.

Lemma copyDoor_id (door : Door) : copyDoor door = door.
Proof. by destruct door. Qed.

(** X16.  After load, the table holds under each id the last door of the
    data file with that id, with all its fields, and nothing under an id
    the file does not use. *)
Theorem load_lookup (doorData : list Door) (i : Z) :
  load doorData !! i = last (filter (fun door => id door = i) doorData).
Proof.
  unfold load. induction doorData as [|door doorData IH] using rev_ind; [done|].
  rewrite fold_left_app, filter_app. simpl. rewrite copyDoor_id.
  destruct (decide (id door = i)) as [<-|Hne].
  - rewrite lookup_insert_eq, filter_cons_True by done.
    by rewrite filter_nil, last_snoc.
  - rewrite lookup_insert_ne by done.
    rewrite filter_cons_False by done. by rewrite filter_nil, app_nil_r.
Qed.

End DoorsLookups.

(** ** Mob handler: where a roaming mob can end up *)

Module MobRoaming.
Import MobHandler.

(** X17.  Whenever handleRoaming does move the mob, the mob is alive and
    not in combat, the destination is a tile that neither collides nor is
    empty nor is a door, it lies on the plateau level stored by the
    constructor, it is not the tile the mob stands on, and it is no further
    than the roaming distance from the spawn point along either axis. *)
Theorem handleRoaming_destination_safe (h : Handler) (rx ry nx ny : Z) :
  inRoamRange h rx → inRoamRange h ry →
  handleRoaming h rx ry = Some (nx, ny) →
  dead (mob h) = false
  ∧ combatStarted (mob h) = false
  ∧ isColliding (map h) nx ny = false
  ∧ isEmpty (map h) nx ny = false
  ∧ isDoor (map h) nx ny = false
  ∧ getPlateauLevel (map h) nx ny = plateauLevel h
  ∧ (nx, ny) ≠ (x (mob h), y (mob h))
  ∧ Z.abs (nx - spawnX (mob h)) <= roamDistance (mob h)
  ∧ Z.abs (ny - spawnY (mob h)) <= roamDistance (mob h).
Proof.
  unfold inRoamRange. intros Hx Hy Hr.
  destruct (MobHandlerFacts.handleRoaming_target h rx ry nx ny Hr) as [-> ->].
  unfold handleRoaming in Hr.
  destruct (dead (mob h)); [done|].
  destruct (isColliding _ _ _); [done|].
  destruct (isEmpty _ _ _); [done|].
  destruct (isDoor _ _ _); [done|].
  destruct (distance_lt _ _); [done|].
  destruct (_ && _) eqn:Esame; [done|].
  destruct (combatStarted (mob h)); [done|].
  destruct (Z.eqb_spec (plateauLevel h)
              (getPlateauLevel (map h) (spawnX (mob h) + rx) (spawnY (mob h) + ry)))
    as [Ep|Ep]; [|done].
  split_and!; try done; [|lia|lia].
  intros [= Ex Ey]. rewrite Ex, Ey, !Z.eqb_refl in Esame. done.
Qed.

(** A handler built by the constructor keeps the mob on the plateau level
    of its spawn tile. *)
Lemma plateauLevel_of_spawn (m : Map) (b : Mob) :
  plateauLevel (new m b) = getPlateauLevel m (spawnX b) (spawnY b).
Proof. done. Qed.

End MobRoaming.

(** ** Player: more on experience, the cheat score, PvP and positions *)

Module PlayerMore.
Import Player.

Section Facts.
Context `{!Formulas, !Config}.

(** The progress fields after addExperience. *)
Lemma addExperience_progress (exp : Z) (p : Player) :
  let e := experience p + exp in
  experience (addExperience exp p) = e
  ∧ level (addExperience exp p) = expToLevel e
  ∧ nextExperience (addExperience exp p) = Some (nextExp e)
  ∧ prevExperience (addExperience exp p) = Some (prevExp e).
Proof.
  intros e. rewrite PlayerFacts.addExperience_spec.
  unfold addExperienceState. fold e. by destruct (negb _).
Qed.

(** X18.  Two gains in a row leave the experience, the level and the two
    thresholds where one gain of their sum leaves them. *)
Theorem addExperience_gains_add_up (a b : Z) (p : Player) :
  let p1 := addExperience b (addExperience a p) in
  let p2 := addExperience (a + b) p in
  experience p1 = experience p2
  ∧ level p1 = level p2
  ∧ nextExperience p1 = nextExperience p2
  ∧ prevExperience p1 = prevExperience p2.
Proof.
  intros p1 p2. subst p1 p2.
  destruct (addExperience_progress b (addExperience a p)) as (-> & -> & -> & ->).
  destruct (addExperience_progress (a + b) p) as (-> & -> & -> & ->).
  destruct (addExperience_progress a p) as (-> & _).
  by rewrite Z.add_assoc.
Qed.

Lemma countEvents_isSave_saveEvents (p : Player) :
  countEvents isSave (saveEvents p)
  = if skipDatabase || isGuest p || negb (ready p) then 0%nat else 1%nat.
Proof. unfold saveEvents. by destruct (_ || _). Qed.

Lemma countEvents_isSave_syncEvents (p : Player) :
  countEvents isSave (syncEvents p)
  = if skipDatabase || isGuest p || negb (ready p) then 0%nat else 1%nat.
Proof.
  unfold syncEvents. change (?e :: ?l) with ([e] ++ l).
  by rewrite PlayerFacts.countEvents_app, countEvents_isSave_saveEvents.
Qed.

(** X19.  addExperience reaches the database only for a ready player who
    is not a guest, on a server that does not skip the database: then it
    saves once, and twice when the level changed; otherwise never. *)
Theorem addExperience_saves (exp : Z) (p : Player) :
  countEvents isSave (emitted p (addExperience exp p))
  = if skipDatabase || isGuest p || negb (ready p) then 0%nat
    else if level p =? expToLevel (experience p + exp) then 1%nat else 2%nat.
Proof.
  rewrite PlayerFacts.addExperience_emitted.
  unfold addExperienceEvents, addExperienceState. cbv zeta.
  change (level (setProgress _ (expToLevel (experience p + exp)) _ _ p))
    with (expToLevel (experience p + exp)).
  destruct (level p =? expToLevel (experience p + exp)); cbn [negb].
  - rewrite !PlayerFacts.countEvents_app, countEvents_isSave_syncEvents.
    cbn [isGuest ready setProgress]. by destruct (_ || _).
  - unfold levelUpEvents. cbv zeta.
    rewrite !PlayerFacts.countEvents_app, !countEvents_isSave_syncEvents.
    cbn [isGuest ready setProgress levelUpVitals setVitals].
    by destruct (_ || _).
Qed.

(** One call of incrementCheatScore outside combat. *)
Lemma incrementCheatScore_outside (amount : Z) (p : Player) :
  combatStarted p = false →
  incrementCheatScore amount p
  = setLog (log p ++ (if cheatScoreCallback p then [CheatScoreCallback] else []))
           (setCheatScore (cheatScore p + amount) p).
Proof.
  intros Hc. unfold incrementCheatScore. rewrite Hc.
  cbn [cheatScoreCallback setCheatScore].
  destruct (cheatScoreCallback p); [done|].
  rewrite app_nil_r.
  change (log p) with (log (setCheatScore (cheatScore p + amount) p)).
  by rewrite PlayerFacts.setLog_log.
Qed.

(** X20.  Outside combat the amounts of a run of incrementCheatScore calls
    add up in the cheat score and the registered callback is called once
    per call; in combat the whole run changes nothing. *)
Theorem incrementCheatScores_add_up (amounts : list Z) (p : Player) :
  let p' := incrementCheatScores amounts p in
  (combatStarted p = true → p' = p)
  ∧ (combatStarted p = false →
       cheatScore p' = cheatScore p + foldr Z.add 0 amounts
       ∧ emitted p p'
         = replicate (if cheatScoreCallback p then length amounts else 0%nat)
                     CheatScoreCallback
       ∧ combatStarted p' = false).
Proof.
  intros p'. subst p'. unfold incrementCheatScores. split.
  - intros Hc. induction amounts as [|a amounts IH]; [done|].
    simpl. unfold incrementCheatScore at 2. by rewrite Hc.
  - intros Hc.
    assert (∀ q, combatStarted q = false →
      let q' := fold_left (fun acc amount => incrementCheatScore amount acc) amounts q in
      cheatScore q' = cheatScore q + foldr Z.add 0 amounts
      ∧ log q'
        = log q ++ replicate (if cheatScoreCallback q then length amounts else 0%nat)
                             CheatScoreCallback
      ∧ combatStarted q' = false) as Hrun.
    { induction amounts as [|a amounts IH]; intros q Hq; simpl.
      - split_and!; [lia| |done]. destruct (cheatScoreCallback q); by rewrite app_nil_r.
      - rewrite (incrementCheatScore_outside a q Hq).
        destruct (IH (setLog (log q ++ (if cheatScoreCallback q
                                        then [CheatScoreCallback] else []))
                        (setCheatScore (cheatScore q + a) q)) Hq)
          as (-> & -> & ->).
        cbn [cheatScore log cheatScoreCallback setLog setCheatScore].
        split_and!; [lia| |done].
        destruct (cheatScoreCallback q); simpl; by rewrite <- (assoc_L (++)). }
    destruct (Hrun p Hc) as (Hs & Hl & Hk). split_and!; [done| |done].
    by apply PlayerFacts.emitted_app.
Qed.

(** X21.  verifyRights makes an administrator of every player on a server
    that skips the database and of every name on the administrators list,
    also when the name is on the moderators list as well; a name that is on
    the moderators list only becomes a moderator; for any other name the
    player is left as loaded. *)
Theorem verifyRights_tiers (moderators administrators : list string)
    (lowerName : string) (p : Player) :
  let p' := verifyRights moderators administrators lowerName p in
  (skipDatabase = true ∨ lowerName ∈ administrators → rights p' = 2)
  ∧ (skipDatabase = false → (lowerName ∉ administrators) →
       lowerName ∈ moderators → rights p' = 1)
  ∧ (skipDatabase = false → (lowerName ∉ administrators) →
       (lowerName ∉ moderators) → p' = p)
  ∧ setRights (rights p) p' = p.
Proof.
  intros p'. subst p'. unfold verifyRights. split_and!.
  - intros [Hs|Ha].
    + rewrite Hs, orb_true_r. done.
    + by rewrite (bool_decide_eq_true_2 _ Ha).
  - intros Hs Ha Hm.
    by rewrite Hs, (bool_decide_eq_false_2 _ Ha), (bool_decide_eq_true_2 _ Hm).
  - intros Hs Ha Hm.
    by rewrite Hs, (bool_decide_eq_false_2 _ Ha), (bool_decide_eq_false_2 _ Hm).
  - destruct p.
    by destruct (bool_decide (lowerName ∈ moderators)),
         (bool_decide (lowerName ∈ administrators) || skipDatabase).
Qed.

(** One call of updatePVP on a player whose PvP state is permanent. *)
Lemma updatePVP_permanent (newPvp permanent : bool) (now1 now2 : Z) (s : PvpPlayer) :
  permanentPVP s = true → updatePVP newPvp permanent now1 now2 s = s.
Proof.
  intros Hp. unfold updatePVP. rewrite Hp, orb_true_r.
  by destruct (_ =? 0).
Qed.

(** X22.  Once the PvP state of a player is permanent, no run of updatePVP
    calls changes the player: neither flag, no notification. *)
Theorem permanentPVP_is_final (calls : list (bool * bool * Z * Z)) (s : PvpPlayer) :
  permanentPVP s = true → updatePVPs calls s = s.
Proof.
  intros Hp. unfold updatePVPs.
  induction calls as [|[[[newPvp permanent] now1] now2] calls IH]; [done|].
  simpl. by rewrite updatePVP_permanent.
Qed.

(** X23.  For a player in a region other than 0 whose PvP state is not
    permanent, updatePVP with the other value of the flag sets both flags
    as asked, also when the notification is held back by the 250 ms limit;
    the notification, when sent, says that the player entered the zone if
    the new flag is set and that they left it otherwise.  In the region 0
    updatePVP does nothing. *)
Theorem updatePVP_switches (newPvp permanent : bool) (now1 now2 : Z) (s : PvpPlayer) :
  permanentPVP s = false →
  pvp s ≠ newPvp →
  let s' := updatePVP newPvp permanent now1 now2 s in
  (region (base s) = 0 → s' = s)
  ∧ (region (base s) ≠ 0 →
       pvp s' = newPvp
       ∧ permanentPVP s' = permanent
       ∧ emitted (base s) (base s')
         = if notifiedRecently now1 (base s) then []
           else [PushPlayer
                   (NotificationText
                      (parseMessage (if newPvp then "You have entered a PvP zone!"
                                     else "You are no longer in a PvP zone!"))
                      None)]).
Proof.
  intros Hperm Hne s'. subst s'. unfold updatePVP. split.
  - intros ->. done.
  - intros Hreg. destruct (Z.eqb_spec (region (base s)) 0) as [?|_]; [done|].
    rewrite Hperm, orb_false_r.
    destruct (Bool.eqb (pvp s) newPvp) eqn:Eeq;
      [by apply Bool.eqb_prop in Eeq|].
    cbn [pvp permanentPVP base]. split_and!; [done|done|].
    assert (∀ msg,
      emitted (base s) (notify msg None now1 now2 (base s))
      = if String.eqb msg "" then []
        else if notifiedRecently now1 (base s) then []
        else [PushPlayer (NotificationText (parseMessage msg) None)]) as Hnotify.
    { intros msg. unfold notify.
      destruct (String.eqb msg "");
        [by unfold emitted; rewrite drop_all|].
      destruct (notifiedRecently now1 (base s));
        [by unfold emitted; rewrite drop_all|].
      by apply PlayerFacts.emitted_app. }
    destruct (pvp s), newPvp; try done; cbn [andb negb]; by rewrite Hnotify.
Qed.

End Facts.

(** X24.  teleport always announces the coordinates it was asked for and
    always ends by cleaning the player's combat.  The player ends up at
    those coordinates only when alive and when they are inside the map: a
    dead player stays where they are and no movement is announced, and
    for coordinates outside the map the player is put at (50, 89), which is
    what the movement packet then says. *)
Theorem teleport_announces (isOutOfBounds : Z → Z → bool) (tx ty : Z)
    (isDoor withAnimation : bool) (s : Position) :
  let s' := teleport isOutOfBounds tx ty isDoor withAnimation s in
  let target := if isOutOfBounds tx ty then (50, 89) else (tx, ty) in
  (posX s', posY s') = (if posDead s then (posX s, posY s) else target)
  ∧ moves s'
    = moves s
      ++ (if teleportCallback s then [TeleportCallbackCall tx ty isDoor] else [])
      ++ [TeleportPacket (posRegion s) (posInstance s) tx ty withAnimation]
      ++ (if posDead s then []
          else [MovementPacket (posRegion s) (posInstance s) target.1 target.2
                               (posInstance s)])
      ++ [CleanCombat]
  ∧ posDead s' = posDead s.
Proof.
  intros s' target. subst s' target. unfold teleport, setPosition.
  destruct s as [px py dead inst reg cb mv]. simpl.
  destruct cb, dead, (isOutOfBounds tx ty); simpl;
    by rewrite <- ?(assoc_L (++)).
Qed.

(** An achievement the controller does not know counts as finished
    for finishedAchievement, while a door that asks for it stays closed; a
    quest the controller does not know counts as not finished. *)
Lemma unknown_achievement_and_quest (d : Doors.Doors) (door : Doors.Door)
    (getQuest : Z → option bool) (achievementId questId : Z) :
  Doors.getAchievement (Doors.env d) (Some achievementId) = None →
  getQuest questId = None →
  Doors.status door = None →
  Doors.skipDatabase (Doors.env d) = false →
  Doors.requirement door = "achievement" →
  Doors.achievementId door = Some achievementId →
  finishedAchievement (Some (Doors.getAchievement (Doors.env d))) achievementId = true
  ∧ Doors.getStatus d door = Some Doors.Closed
  ∧ finishedQuest (Some getQuest) questId = false.
Proof.
  intros Ha Hq Hst Hskip Hreq Hid.
  unfold finishedAchievement, finishedQuest, Doors.getStatus.
  by rewrite Ha, Hq, Hst, Hskip, Hreq, Hid, Ha.
Qed.

End PlayerMore.

(** ** Skills: combat level bounds, load and repeated sync *)

Module SkillsMore.
Import Skills.

(** X25.  When every skill flagged for combat is at level 1 or above, the
    combat level is at least 1 and at least the level of each of those
    skills. *)
Theorem getCombatLevel_lower_bound (s : Skills) :
  Forall (fun sk => 1 <= level sk) (getCombatSkills s) →
  1 <= getCombatLevel s
  ∧ ∀ sk, sk ∈ getCombatSkills s → level sk <= getCombatLevel s.
Proof.
  unfold getCombatLevel. rewrite SkillsFacts.combat_loop_sum.
  generalize (getCombatSkills s). intros l Hall.
  induction Hall as [|sk l Hsk Hall IH].
  - split; [simpl; lia|]. intros sk Hin. by apply not_elem_of_nil in Hin.
  - rewrite fmap_cons. cbn [foldr].
    destruct IH as [Hone Heach]. split; [lia|].
    intros sk' [->|Hin]%elem_of_cons; [lia|].
    specialize (Heach sk' Hin). lia.
Qed.

(** Writing a skill keeps the keys of the dictionary. *)
Lemma updateSkill_keys (f : Skill → Skill) (t : SkillType) (l : list (SkillType * Skill)) :
  (updateSkill f t l).*1 = l.*1.
Proof.
  induction l as [|[k sk] l IH]; [done|]. cbn [updateSkill].
  destruct (decide (k = t)); [done|]. rewrite !fmap_cons. by rewrite IH.
Qed.

(** Reading a key after a write to a key. *)
Lemma lookup_updateSkill (f : Skill → Skill) (t t' : SkillType) (l : list (SkillType * Skill)) :
  lookupSkill (updateSkill f t l) t'
  = if decide (t = t') then f <$> lookupSkill l t else lookupSkill l t'.
Proof.
  induction l as [|[k sk] l IH]; simpl.
  - by destruct (decide (t = t')).
  - destruct (decide (k = t)) as [->|Hkt]; simpl.
    + destruct (decide (t = t')) as [<-|Hne]; simpl.
      * by destruct (decide (t = t)).
      * by destruct (decide (t = t')).
    + destruct (decide (k = t')) as [->|Hkt']; simpl.
      * by destruct (decide (t = t')).
      * apply IH.
Qed.

(** X26.  A write to a skill that is not flagged for combat, such as the
    experience load stores for it, does not move the combat level as long
    as the write keeps the flag. *)
Theorem getCombatLevel_ignores_other_skills (f : Skill → Skill) (t : SkillType)
    (s : Skills) (sk : Skill) :
  get s t = Some sk →
  combat sk = false →
  combat (f sk) = false →
  getCombatLevel
    {| loaded := loaded s; skills := updateSkill f t (skills s);
       loadCallback := loadCallback s; bound := bound s; player := player s |}
  = getCombatLevel s.
Proof.
  unfold get, getCombatLevel, getCombatSkills. simpl.
  intros Hget Hc Hfc. f_equal.
  induction (skills s) as [|[k sk'] l IH]; [done|]. simpl in Hget |- *.
  destruct (decide (k = t)) as [->|Hne].
  - injection Hget as ->. simpl.
    rewrite !filter_cons_False; [done|by rewrite Hc|by rewrite Hfc].
  - simpl. rewrite !filter_cons. destruct (decide (combat sk' = true)).
    + f_equal. by apply IH.
    + by apply IH.
Qed.

Section Facts.
Context `{!Player.Formulas, !Player.Config}.

Lemma loadEntry_keys (l : list (SkillType * Skill)) (entry : SkillType * Z) :
  (loadEntry l entry).*1 = l.*1.
Proof.
  unfold loadEntry. destruct (lookupSkill l entry.1); [|done].
  apply updateSkill_keys.
Qed.

Lemma lookup_loadEntry (l : list (SkillType * Skill)) (entry : SkillType * Z)
    (t : SkillType) :
  lookupSkill (loadEntry l entry) t
  = if decide (entry.1 = t) then setExperience entry.2 <$> lookupSkill l t
    else lookupSkill l t.
Proof.
  unfold loadEntry. destruct (lookupSkill l entry.1) eqn:E.
  - rewrite lookup_updateSkill. by destruct (decide (entry.1 = t)) as [<-|].
  - destruct (decide (entry.1 = t)) as [<-|]; [by rewrite E|done].
Qed.

(** Loading entries changes neither which keys exist nor any combat flag. *)
Lemma load_entries_flags (data : list (SkillType * Z)) (l : list (SkillType * Skill))
    (t : SkillType) :
  combat <$> lookupSkill (fold_left loadEntry data l) t = combat <$> lookupSkill l t.
Proof.
  revert l. induction data as [|entry data IH]; intros l; [done|].
  simpl. rewrite IH, lookup_loadEntry.
  destruct (decide (entry.1 = t)); [|done]. by destruct (lookupSkill l t).
Qed.

(** X27.  load applies the persisted entries in order: of several entries
    for one skill the last one decides its experience and level, an entry
    for a type the dictionary does not have is skipped, a skill without an
    entry keeps what it had, and neither the keys nor the combat flags
    change. *)
Theorem load_last_entry_wins (data : list (SkillType * Z)) (t : SkillType) (e : Z)
    (l : list (SkillType * Skill)) :
  lookupSkill (fold_left loadEntry (data ++ [(t, e)]) l) t
  = setExperience e <$> lookupSkill l t
  ∧ (fold_left loadEntry data l).*1 = l.*1
  ∧ ((t ∉ data.*1) → lookupSkill (fold_left loadEntry data l) t = lookupSkill l t)
  ∧ (lookupSkill l t = None → lookupSkill (fold_left loadEntry data l) t = None).
Proof.
  split_and!.
  - rewrite fold_left_app. simpl. rewrite lookup_loadEntry. simpl.
    destruct (decide (t = t)); [|done].
    pose proof (load_entries_flags data l t) as Hflags.
    destruct (lookupSkill (fold_left loadEntry data l) t) as [sk1|],
             (lookupSkill l t) as [sk2|]; simpl in *; try done.
    injection Hflags as Hc. unfold setExperience. by rewrite Hc.
  - revert l. induction data as [|entry data IH]; intros l; [done|].
    simpl. by rewrite IH, loadEntry_keys.
  - revert l. induction data as [|entry data IH]; intros l Hnin; [done|].
    simpl. rewrite fmap_cons in Hnin. apply not_elem_of_cons in Hnin as [Hne Hnin].
    rewrite IH by done. rewrite lookup_loadEntry.
    by destruct (decide (entry.1 = t)).
  - intros Hnone. pose proof (load_entries_flags data l t) as Hflags.
    rewrite Hnone in Hflags.
    by destruct (lookupSkill (fold_left loadEntry data l) t).
Qed.

(** X28.  load ends in a synchronisation that already sees the loaded
    skills: it marks the aggregate loaded, calls the load callback first
    when one is registered, and then sets the maximum hit points and mana
    from the loaded health and magic levels and the player's level from
    the loaded combat skills, and pushes the level packet and the points
    packet. *)
Theorem load_then_sync (data : list (SkillType * Z)) (s : Skills) (health magic : Skill) :
  let table := fold_left loadEntry data (skills s) in
  lookupSkill table Health = Some health →
  lookupSkill table Magic = Some magic →
  ∃ s', load data s = Some s'
    ∧ loaded s' = true
    ∧ skills s' = table
    ∧ Player.maxPoints (Player.hitPoints (player s')) = Player.getMaxHitPoints (level health)
    ∧ Player.maxPoints (Player.mana (player s')) = Player.getMaxMana (level magic)
    ∧ Player.level (player s') = getCombatLevel s'
    ∧ Player.emitted (player s) (player s')
      = (if loadCallback s then [Player.SkillsLoadCallback] else [])
        ++ [Player.PushPlayer
              (Player.ExperienceSync (Player.instance (player s)) (getCombatLevel s'));
            Player.PushPlayer
              (Player.PointsPacket (Player.instance (player s))
                 (Player.points (Player.hitPoints (player s)))
                 (Player.getMaxHitPoints (level health))
                 (Player.points (Player.mana (player s)))
                 (Player.getMaxMana (level magic)))].
Proof.
  intros table Hh Hm. unfold load. cbn [loadCallback].
  destruct (loadCallback s) eqn:Ecb.
  - unfold sync, get. cbn [loaded skills setPlayer negb]. fold table.
    rewrite Hh, Hm. cbn [mbind option_bind].
    eexists. split; [reflexivity|]. split_and!; try done.
    apply PlayerFacts.emitted_app. cbn. by rewrite <- !(assoc_L (++)).
  - unfold sync, get. cbn [loaded skills negb]. fold table.
    rewrite Hh, Hm. cbn [mbind option_bind].
    eexists. split; [reflexivity|]. split_and!; try done.
    apply PlayerFacts.emitted_app. cbn. by rewrite <- !(assoc_L (++)).
Qed.

(** X29.  A second sync right after a first one finds nothing to change:
    maximum and current hit points and mana and the level stay as the
    first sync left them, and the same two packets are pushed again. *)
Theorem sync_twice (s s1 : Skills) :
  loaded s = true →
  sync s = Some s1 →
  ∃ s2, sync s1 = Some s2
    ∧ Player.hitPoints (player s2) = Player.hitPoints (player s1)
    ∧ Player.mana (player s2) = Player.mana (player s1)
    ∧ Player.level (player s2) = Player.level (player s1)
    ∧ skills s2 = skills s
    ∧ Player.emitted (player s1) (player s2) = Player.emitted (player s) (player s1).
Proof.
  intros Hl Hs. unfold sync in Hs. rewrite Hl in Hs. cbn [negb] in Hs.
  destruct (get s Health) as [health|] eqn:Eh; [|done].
  destruct (get s Magic) as [magic|] eqn:Em; [|done].
  cbn [mbind option_bind] in Hs. injection Hs as <-.
  unfold sync, get. cbn [loaded skills setPlayer].
  unfold get in Eh, Em. rewrite Hl, Eh, Em. cbn [negb mbind option_bind].
  eexists. split; [reflexivity|]. split_and!; try done.
  rewrite (PlayerFacts.emitted_app _ _
             [Player.PushPlayer
                (Player.ExperienceSync (Player.instance (player s)) (getCombatLevel s));
              Player.PushPlayer
                (Player.PointsPacket (Player.instance (player s))
                   (Player.points (Player.hitPoints (player s)))
                   (Player.getMaxHitPoints (level health))
                   (Player.points (Player.mana (player s)))
                   (Player.getMaxMana (level magic)))]).
  - symmetry. apply PlayerFacts.emitted_app. cbn. by rewrite <- !(assoc_L (++)).
  - cbn. by rewrite <- !(assoc_L (++)).
Qed.

End Facts.

End SkillsMore.

(** ** Profession: the level after load *)

Module ProfessionFacts.
Import Profession.

Section Facts.
Context `{!Player.Formulas}.

(** What addExperience does to a profession and which calls it makes. *)
Lemma addExperience_calls (gain : Z) (p : Profession) :
  let e := experience p + gain in
  experience (addExperience gain p) = e
  ∧ level (addExperience gain p) = Player.expToLevel e
  ∧ calls (addExperience gain p)
    = calls p
      ++ (if level p =? Player.expToLevel e then []
          else [Popup "Profession Level Up!"
                      (levelUpMessage (name p) (Player.expToLevel e)) "#9933ff"])
      ++ [SendExperience (playerInstance p) gain; SaveCall].
Proof.
  intros e. unfold addExperience. fold e. cbn [level].
  destruct (level p =? Player.expToLevel e); cbn [negb].
  - split_and!; [done|done|]. unfold call. cbn.
    by rewrite <- !(assoc_L (++)).
  - split_and!; [done|done|]. unfold call. cbn.
    by rewrite <- !(assoc_L (++)).
Qed.

(** X30.  load stores the persisted experience and leaves the level field
    at the level of zero experience, while getLevel already answers from
    the loaded experience.  The first addExperience after load therefore
    pops up a level-up whenever the new total maps to another level than
    zero experience does, however small the gain, a gain of 0 included;
    it then sends the experience packet and saves. *)
Theorem first_gain_after_load (i : Z) (inst n : string) (stored gain maxLevel : Z) :
  let p0 := load stored (new i inst n) in
  let p1 := addExperience gain p0 in
  level p0 = Player.expToLevel 0
  ∧ getLevel maxLevel p0 = Z.min (Player.expToLevel stored) maxLevel
  ∧ experience p1 = stored + gain
  ∧ level p1 = Player.expToLevel (stored + gain)
  ∧ calls p1
    = (if Player.expToLevel 0 =? Player.expToLevel (stored + gain) then []
       else [Popup "Profession Level Up!"
                   (levelUpMessage n (Player.expToLevel (stored + gain))) "#9933ff"])
      ++ [SendExperience inst gain; SaveCall].
Proof.
  intros p0 p1.
  destruct (addExperience_calls gain p0) as (He & Hl & Hc).
  split_and!; [done| |done|done|done].
  unfold getLevel. subst p0. cbn [experience load].
  destruct (Z.gtb_spec (Player.expToLevel stored) maxLevel); lia.
Qed.

(** getLevel is capped, the level field is not; getData and load undo each
    other. *)
Lemma getLevel_capped (maxLevel gain : Z) (p : Profession) :
  getLevel maxLevel (addExperience gain p)
  = Z.min (level (addExperience gain p)) maxLevel
  ∧ load (getData p) p = p
  ∧ ∀ e, getData (load e p) = e.
Proof.
  destruct (addExperience_calls gain p) as (He & Hl & _).
  unfold getLevel. rewrite He, Hl. split_and!.
  - destruct (Z.gtb_spec (Player.expToLevel (experience p + gain)) maxLevel); lia.
  - by destruct p.
  - done.
Qed.

End Facts.

End ProfessionFacts.

(** ** The theorems at the sample data *)

Module Witnesses.

#[local] Existing Instance Player.sampleFormulas.
#[local] Existing Instance Player.sampleConfig.

(** A decidable fact about sample data, by evaluation. *)
Ltac by_evaluation := apply (bool_decide_unpack _); vm_compute; exact I.

(** The sample player gains 150 experience: level 2, twenty hit points out
    of twenty. *)
Lemma addExperience_level_transition_witness :
  let p' := Player.addExperience 150 Player.samplePlayer in
  0 <= Player.points (Player.hitPoints Player.samplePlayer)
  ∧ Player.level p' = 2
  ∧ Player.maxPoints (Player.hitPoints p') = 20
  ∧ Player.points (Player.hitPoints p') = 20.
Proof.
  cbv zeta.
  assert (0 <= Player.points (Player.hitPoints Player.samplePlayer)) as Hhp
    by (simpl; lia).
  destruct (PlayerFacts.addExperience_level_transition 150 Player.samplePlayer Hhp)
    as (_ & Hlevel & _ & _ & Hup & _).
  assert (Player.level (Player.addExperience 150 Player.samplePlayer) = 2) as E2
    by (rewrite Hlevel; reflexivity).
  destruct Hup as (Hmax & Hfull & _); [rewrite E2; discriminate|].
  rewrite Hfull, Hmax, E2. split_and!; [exact Hhp|reflexivity..].
Defined.

(** A first notification is sent; a second one 100 ms later is not. *)
Lemma notify_rate_limit_witness :
  let p1 := Player.notify "hello" None 1000 1001 Player.samplePlayer in
  Player.emitted Player.samplePlayer p1
    = [Player.PushPlayer (Player.NotificationText "hello" None)]
  ∧ Player.notify "again" None 1100 1101 p1 = p1.
Proof.
  cbv zeta.
  pose proof (PlayerFacts.notify_rate_limit "hello" None 1000 1001 Player.samplePlayer
                ltac:(discriminate)) as [_ Hsent].
  pose proof (PlayerFacts.notify_rate_limit "again" None 1100 1101
                (Player.notify "hello" None 1000 1001 Player.samplePlayer)
                ltac:(discriminate)) as [Hquiet _].
  split.
  - apply Hsent. left. reflexivity.
  - apply (Hquiet 1001); [reflexivity|lia].
Defined.

(** Outside combat the sample player's cheat score goes from 0 to 3 and the
    callback is called. *)
Lemma incrementCheatScore_frame_witness :
  let p' := Player.incrementCheatScore 3 Player.samplePlayer in
  Player.cheatScore p' = 0 + 3
  ∧ Player.emitted Player.samplePlayer p' = [Player.CheatScoreCallback].
Proof.
  cbv zeta.
  destruct (proj2 (PlayerFacts.incrementCheatScore_frame 3 Player.samplePlayer)
              eq_refl) as (Hscore & Hcall & _).
  split; [exact Hscore|exact Hcall].
Defined.

(** The sample skills are not loaded: sync leaves them as they are. *)
Lemma sync_before_load_witness :
  Skills.sync Skills.sampleSkills = Some Skills.sampleSkills.
Proof. apply (SkillsFacts.sync_before_load Skills.sampleSkills). reflexivity. Defined.

(** Five combat skills at level 1: combat level 1. *)
Lemma getCombatLevel_formula_witness :
  length (Skills.getCombatSkills Skills.sampleSkills) = 5%nat
  ∧ Skills.getCombatLevel Skills.sampleSkills = 1.
Proof.
  split; [reflexivity|].
  apply (proj2 (SkillsFacts.getCombatLevel_formula Skills.sampleSkills)).
  vm_compute. repeat constructor.
Defined.

(** The third of five waiting players leaves. *)
Lemma remove_leaves_lobby_witness :
  NoDup (TeamWar.lobby TeamWar.sampleLobby)
  ∧ TeamWar.lobby (TeamWar.remove 3%nat TeamWar.sampleLobby) = [1; 2; 4; 5]%nat
  ∧ (3%nat ∉ TeamWar.lobby (TeamWar.remove 3%nat TeamWar.sampleLobby)).
Proof.
  assert (NoDup (TeamWar.lobby TeamWar.sampleLobby)) as Hnd.
  { by_evaluation. }
  split_and!; [exact Hnd|reflexivity|].
  apply (TeamWarOps.remove_leaves_lobby 3%nat TeamWar.sampleLobby Hnd).
Defined.

(** A sixth player joins and leaves again. *)
Lemma remove_add_restores_lobby_witness :
  TeamWar.lobby (TeamWar.remove 6%nat (TeamWar.add 6%nat TeamWar.sampleLobby))
  = TeamWar.lobby TeamWar.sampleLobby.
Proof.
  apply (TeamWarOps.remove_add_restores_lobby 6%nat TeamWar.sampleLobby).
  by_evaluation.
Defined.

(** Five players joined and the interval fired: the countdown is still 120. *)
Lemma countdown_never_elapses_witness :
  TeamWar.countdown
    (TeamWar.run [TeamWar.Add 1%nat; TeamWar.Add 2%nat; TeamWar.Add 3%nat;
                  TeamWar.Add 4%nat; TeamWar.Add 5%nat; TeamWar.Tick 20000 1]
                 (TeamWar.new 0)) = 120.
Proof.
  apply (TeamWarOps.countdown_never_elapses
           [TeamWar.Add 1%nat; TeamWar.Add 2%nat; TeamWar.Add 3%nat;
            TeamWar.Add 4%nat; TeamWar.Add 5%nat; TeamWar.Tick 20000 1] 0).
  reflexivity.
Defined.

(** With the countdown written to 0, the interval starts the match of the
    five waiting players. *)
Lemma tick_builds_teams_witness :
  TeamWar.started
    (TeamWar.tick 20000 1 (TeamWar.set_countdown 0 TeamWar.sampleLobby)) = true.
Proof.
  apply (TeamWarFacts.tick_builds_teams 20000 1
           (TeamWar.set_countdown 0 TeamWar.sampleLobby)); vm_compute; discriminate.
Defined.

(** The draws (0, 4) for the red and (2, 3) for the blue team. *)
Lemma team_spawns_apart_witness :
  TeamWar.getRedTeamSpawn 0 4 = (133, 475)
  ∧ TeamWar.getBlueTeamSpawn 2 3 = (165, 502)
  ∧ (TeamWar.getRedTeamSpawn 0 4).1 < (TeamWar.getBlueTeamSpawn 2 3).1.
Proof.
  split_and!; [reflexivity|reflexivity|].
  apply (TeamWarOps.team_spawns_apart 0 4 2 3);
    unfold TeamWar.inRandomRange; simpl; lia.
Defined.

(** The level 10 door is closed for the sample player of level 9. *)
Lemma getStatus_gated_witness :
  Doors.getStatus Doors.sampleDoors Doors.levelDoor = Some Doors.Closed.
Proof.
  apply (DoorsLookups.getStatus_gated Doors.sampleDoors Doors.levelDoor);
    [reflexivity|reflexivity|reflexivity|].
  intros l [= <-]. simpl. lia.
Defined.

(** The second tile of the closed level door. *)
Lemma getTiles_lookup_witness :
  ∃ n : nat,
    Doors.indexOf (Doors.indexes (Doors.getTiles Doors.sampleDoors Doors.levelDoor)) 1307
    = Z.of_nat n
    ∧ Doors.collisions (Doors.getTiles Doors.sampleDoors Doors.levelDoor) !! n
      = Some false
    ∧ Doors.tilesData (Doors.getTiles Doors.sampleDoors Doors.levelDoor) !! n
      = Some [9].
Proof.
  assert (NoDup (Doors.doorState Doors.levelDoor
                   (Doors.getStatus Doors.sampleDoors Doors.levelDoor)).*1) as Hnd
    by by_evaluation.
  apply (proj1 (DoorsLookups.getTiles_lookup Doors.sampleDoors Doors.levelDoor 1307 Hnd)
           {| Doors.data := [9]; Doors.isColliding := false |}).
  vm_compute. apply list_elem_of_further, list_elem_of_here.
Defined.

(** The sample mob roams to (104, 103). *)
Lemma handleRoaming_destination_safe_witness :
  MobHandler.handleRoaming (MobHandler.new MobHandler.openMap MobHandler.rat) 4 3
  = Some (104, 103)
  ∧ MobHandler.isColliding MobHandler.openMap 104 103 = false.
Proof.
  split; [reflexivity|].
  apply (MobRoaming.handleRoaming_destination_safe
           (MobHandler.new MobHandler.openMap MobHandler.rat) 4 3 104 103);
    [unfold MobHandler.inRoamRange; simpl; lia
    |unfold MobHandler.inRoamRange; simpl; lia
    |reflexivity].
Defined.

(** Two notifications 300 ms apart are both sent. *)
Lemma notify_min_gap_witness : 250 <= 1300 - 1000.
Proof.
  apply (PlayerFacts.notify_min_gap "one" "two" None None 1000 1001 1300 1301
           Player.samplePlayer); [lia|vm_compute; discriminate|vm_compute; discriminate].
Defined.

(** A player in a permanent PvP state is told to leave it, twice. *)
Lemma permanentPVP_is_final_witness :
  Player.updatePVPs [(false, false, 1000, 1001); (false, true, 2000, 2001)]
                    Player.permanentPvpPlayer
  = Player.permanentPvpPlayer.
Proof. apply PlayerMore.permanentPVP_is_final. reflexivity. Defined.

(** The sample player enters a PvP zone. *)
Lemma updatePVP_switches_witness :
  Player.pvp (Player.updatePVP true false 1000 1001 Player.samplePvpPlayer) = true.
Proof.
  apply (PlayerMore.updatePVP_switches true false 1000 1001 Player.samplePvpPlayer);
    [reflexivity|discriminate|discriminate].
Defined.

(** The sample skills: combat level at least 1. *)
Lemma getCombatLevel_lower_bound_witness :
  1 <= Skills.getCombatLevel Skills.sampleSkills.
Proof.
  apply (SkillsMore.getCombatLevel_lower_bound Skills.sampleSkills).
  vm_compute. repeat constructor; discriminate.
Defined.

(** Lumberjacking gains 500 experience: the combat level stays. *)
Lemma getCombatLevel_ignores_other_skills_witness :
  Skills.getCombatLevel
    {| Skills.loaded := false;
       Skills.skills :=
         Skills.updateSkill (Skills.setExperience 500) Skills.Lumberjacking
                            (Skills.skills Skills.sampleSkills);
       Skills.loadCallback := false; Skills.bound := false;
       Skills.player := Player.samplePlayer |}
  = Skills.getCombatLevel Skills.sampleSkills.
Proof.
  apply (SkillsMore.getCombatLevel_ignores_other_skills
           (Skills.setExperience 500) Skills.Lumberjacking Skills.sampleSkills
           {| Skills.experience := 0; Skills.level := 1; Skills.combat := false |});
    reflexivity.
Defined.

(** The sample skills load 250 experience for health: level 3, thirty
    hit points at most. *)
Lemma load_then_sync_witness :
  ∃ s', Skills.load [(Skills.Health, 250)] Skills.sampleSkills = Some s'
        ∧ Player.maxPoints (Player.hitPoints (Skills.player s')) = 30.
Proof.
  destruct (SkillsMore.load_then_sync (H:=Player.sampleFormulas)
              [(Skills.Health, 250)] Skills.sampleSkills
              {| Skills.experience := 250; Skills.level := 3; Skills.combat := true |}
              {| Skills.experience := 0; Skills.level := 1; Skills.combat := true |}
              ltac:(vm_compute; reflexivity) ltac:(vm_compute; reflexivity))
    as (s' & Hload & _ & _ & Hmax & _).
  exists s'. split; [exact Hload|exact Hmax].
Defined.

(** The loaded sample skills are synchronised twice. *)
Lemma sync_twice_witness :
  ∃ s1 s2, Skills.sync Skills.loadedSkills = Some s1
           ∧ Skills.sync s1 = Some s2
           ∧ Player.level (Skills.player s2) = Player.level (Skills.player s1).
Proof.
  destruct (Skills.sync Skills.loadedSkills) as [s1|] eqn:E1;
    [|vm_compute in E1; discriminate].
  destruct (SkillsMore.sync_twice Skills.loadedSkills s1 eq_refl E1)
    as (s2 & E2 & _ & _ & Hlevel & _).
  exists s1, s2. split_and!; [reflexivity|exact E2|exact Hlevel].
Defined.

End Witnesses.
